(** * Contract verification in the explorer backend

    A shallow embedding of [server/backend/backend.go]: the two methods
    [VerifyContract] and [GetCompilerVersion] of [Backend], together with
    the part of Go's [regexp] package that they rely on, and after them
    [GetBlockByNumber], [GetActiveAdresses] and [VerifyReCaptcha]. *)

From Stdlib Require Import String Ascii List Arith Lia Bool.
From stdpp Require Import gmap strings.

(** ** Go strings

    A Go string is a sequence of bytes; record fields carry them as
    [string], the matcher works on the underlying [list ascii]. *)

Abbreviation text := (list ascii).

Definition bytes_of (s : string) : text := list_ascii_of_string s.
Definition string_of (t : text) : string := string_of_list_ascii t.

(** [s[n:]]: Go panics when [n] exceeds [len(s)]; [None] stands for the
    run-time panic "slice bounds out of range". *)
Definition slice_from (n : nat) (s : string) : option string :=
  if n <=? String.length s then Some (string_of (drop n (bytes_of s))) else None.

(** ** The fragment of [regexp] used by the backend *)

Module Regexp.

(** One element of a pattern.  [Star] and [Plus] are the greedy
    repetitions of a single character class, [Mark] is the border of
    a capturing group and [EndText] is [$] (without the [m] flag, so
    it only holds at the very end of the text). *)
Inductive atom : Type :=
| Lit (w : text)
| Star (cls : ascii -> bool)
| Plus (cls : ascii -> bool)
| Mark
| EndText.

Definition regex := list atom.

(** [.] : any character but line feed (no [s] flag). *)
Definition dot (c : ascii) : bool := negb (Ascii.eqb c "010"%char).

(** [[0-9]] *)
Definition digit (c : ascii) : bool :=
  (48 <=? nat_of_ascii c) && (nat_of_ascii c <=? 57).

(** [[^.]] : a negated class also accepts line feed. *)
Definition not_period (c : ascii) : bool := negb (Ascii.eqb c "."%char).

Fixpoint has_prefix (w s : text) : bool :=
  match w, s with
  | [], _ => true
  | a :: w', b :: s' => Ascii.eqb a b && has_prefix w' s'
  | _ :: _, [] => false
  end.

(** Greedy repetition of [cls] followed by the continuation [k]: the
    longest run is tried first, shorter ones on failure. *)
Fixpoint greedy {R : Type} (cls : ascii -> bool)
    (k : nat -> text -> option R) (pos : nat) (s : text) : option R :=
  match s with
  | c :: s' =>
      if cls c then
        match greedy cls k (S pos) s' with
        | Some r => Some r
        | None => k pos s
        end
      else k pos s
  | [] => k pos s
  end.

(** A match of [re] that starts exactly at offset [pos], where [s] is
    the text from [pos] on.  The result is the end offset and the
    offsets of the group borders that were crossed. *)
Fixpoint match_here (re : regex) (pos : nat) (s : text) {struct re}
    : option (nat * list nat) :=
  match re with
  | [] => Some (pos, [])
  | Lit w :: re' =>
      if has_prefix w s
      then match_here re' (pos + length w) (drop (length w) s)
      else None
  | Star cls :: re' => greedy cls (match_here re') pos s
  | Plus cls :: re' =>
      match s with
      | c :: s' => if cls c then greedy cls (match_here re') (S pos) s' else None
      | [] => None
      end
  | Mark :: re' =>
      match match_here re' pos s with
      | Some (e, ms) => Some (e, pos :: ms)
      | None => None
      end
  | EndText :: re' =>
      match s with
      | [] => match_here re' pos s
      | _ :: _ => None
      end
  end.

(** Leftmost match at or after [pos]: start, end, group borders. *)
Fixpoint find_from (re : regex) (pos : nat) (s : text)
    : option (nat * nat * list nat) :=
  match match_here re pos s with
  | Some (e, ms) => Some (pos, e, ms)
  | None =>
      match s with
      | [] => None
      | _ :: s' => find_from re (S pos) s'
      end
  end.

Definition sub (t : text) (a b : nat) : string :=
  string_of (take (b - a) (drop a t)).

Fixpoint groups (t : text) (ms : list nat) : list string :=
  match ms with
  | a :: b :: ms' => sub t a b :: groups t ms'
  | _ => []
  end.

(** [re.FindStringSubmatch(s)]: the whole match followed by the
    groups, or the nil slice when nothing matches. *)
Definition FindStringSubmatch (re : regex) (s : string) : list string :=
  match find_from re 0 (bytes_of s) with
  | Some (a, e, ms) => sub (bytes_of s) a e :: groups (bytes_of s) ms
  | None => []
  end.

(** The scan of [re.ReplaceAllString]: [skip] characters of a match
    found earlier are still to be dropped.  Every pattern of this
    package starts with a literal, so a match is never empty; a match
    of length zero is passed over like a position without a match.
    The replacement is inserted as it is: the backend passes the empty
    string, which has no [$] reference to expand. *)
Fixpoint replace_from (re : regex) (repl : text) (pos skip : nat) (s : text)
    {struct s} : text :=
  match s with
  | [] => []
  | c :: s' =>
      match skip with
      | S k => replace_from re repl (S pos) k s'
      | 0 =>
          match match_here re pos s with
          | Some (e, _) =>
              if pos <? e
              then repl ++ replace_from re repl (S pos) (e - S pos) s'
              else c :: replace_from re repl (S pos) 0 s'
          | None => c :: replace_from re repl (S pos) 0 s'
          end
      end
  end.

Definition ReplaceAllString (re : regex) (src repl : string) : string :=
  string_of (replace_from re (bytes_of repl) 0 0 (bytes_of src)).

End Regexp.

(** The two patterns compiled by the backend. *)

(** [00a165627a7a72305820.*0029$] *)
Definition marker_hex : string := "00a165627a7a72305820".
Definition trailer_hex : string := "0029".

Definition marker : text := bytes_of marker_hex.
Definition trailer : text := bytes_of trailer_hex.

Definition reg : Regexp.regex :=
  [Regexp.Lit marker; Regexp.Star Regexp.dot; Regexp.Lit trailer; Regexp.EndText].

(** [([0-9]+)\.([0-9]+)\.([0-9]+)\+commit\.[^.]*] *)
Definition versionRegexp : Regexp.regex :=
  [Regexp.Mark; Regexp.Plus Regexp.digit; Regexp.Mark; Regexp.Lit (bytes_of ".");
   Regexp.Mark; Regexp.Plus Regexp.digit; Regexp.Mark; Regexp.Lit (bytes_of ".");
   Regexp.Mark; Regexp.Plus Regexp.digit; Regexp.Mark; Regexp.Lit (bytes_of "+commit.");
   Regexp.Star Regexp.not_period].

(** Removal of the metadata hash, as applied to both binaries. *)
Definition strip_metadata (bin : string) : string :=
  Regexp.ReplaceAllString reg bin "".

(** ** Data of the collaborating packages *)

Definition Time := nat.

Module models.

(** Modelled from the spec: [models.Contract] is declared in
    [server/models], which is not among the sources; these are the
    fields of the ContractRecord that [VerifyContract] reads and
    writes. *)
Record Contract : Type := mkContract {
  Address : string;
  Bytecode : string;
  Valid : bool;
  Optimization : bool;
  ContractName : string;
  SourceCode : string;
  CompilerVersion : string;
  UpdatedAt : Time
}.

(** Field assignments [contract.F = v]. *)
Definition set_Valid (v : bool) (c : Contract) : Contract :=
  mkContract (Address c) (Bytecode c) v (Optimization c) (ContractName c)
             (SourceCode c) (CompilerVersion c) (UpdatedAt c).
Definition set_Optimization (v : bool) (c : Contract) : Contract :=
  mkContract (Address c) (Bytecode c) (Valid c) v (ContractName c)
             (SourceCode c) (CompilerVersion c) (UpdatedAt c).
Definition set_ContractName (v : string) (c : Contract) : Contract :=
  mkContract (Address c) (Bytecode c) (Valid c) (Optimization c) v
             (SourceCode c) (CompilerVersion c) (UpdatedAt c).
Definition set_SourceCode (v : string) (c : Contract) : Contract :=
  mkContract (Address c) (Bytecode c) (Valid c) (Optimization c) (ContractName c)
             v (CompilerVersion c) (UpdatedAt c).
Definition set_CompilerVersion (v : string) (c : Contract) : Contract :=
  mkContract (Address c) (Bytecode c) (Valid c) (Optimization c) (ContractName c)
             (SourceCode c) v (UpdatedAt c).
Definition set_UpdatedAt (v : Time) (c : Contract) : Contract :=
  mkContract (Address c) (Bytecode c) (Valid c) (Optimization c) (ContractName c)
             (SourceCode c) (CompilerVersion c) v.

End models.

Module compiler.

(** The parts of [compiler.Contract] and [compiler.Solidity]
    (gochain's [common/compiler]) that the backend looks at. *)
Record ContractInfo : Type := mkContractInfo {
  Source : string;
  CompilerVersion : string
}.

Record Contract : Type := mkContract {
  RuntimeCode : string;
  Info : ContractInfo
}.

Record Solidity : Type := mkSolidity {
  FullVersion : string
}.

End compiler.

(** ** Errors and panics *)

Inductive error : Type := errors_New (text : string).

Definition Error (e : error) : string := match e with errors_New t => t end.

Inductive panic : Type :=
| SliceBoundsOutOfRange
| IndexOutOfRange.

Inductive outcome (A : Type) : Type :=
| Returns (a : A)
| Panics (p : panic).
Arguments Returns {A} a.
Arguments Panics {A} p.

(** ** The collaborators of [Backend]

    The document store behind [self.mongo], the address normalisation
    [common.HexToAddress(a).Hex()] and the two calls into the [solc]
    wrapper.  A failed call ([err != nil]) is [None]. *)
Class Services : Type := {
  Store : Type;
  mongo_getContract : Store -> string -> option models.Contract;
  mongo_updateContract : Store -> models.Contract -> Store * bool;
  HexToAddress_Hex : string -> string;
  CompileSolidityString : string -> string -> option (gmap string compiler.Contract);
  SolidityVersion : string -> option compiler.Solidity
}.

(** What a call does to its collaborators, in order. *)
Inductive Event : Type :=
| GetContractEv (address : string)
| CompileEv (source : string)
| UpdateContractEv (c : models.Contract) (ok : bool)
| SolidityVersionEv.

Record World `{Services} : Type := mkWorld {
  db : Store;
  clock : Time;
  trace : list Event
}.
Arguments mkWorld {_} _ _ _.
Arguments db {_} _.
Arguments clock {_} _.
Arguments trace {_} _.

Section Monad.
Context `{Services}.

Definition M (A : Type) : Type := World -> outcome A * World.

Definition ret {A} (a : A) : M A := fun w => (Returns a, w).

Definition bind {A B} (m : M A) (k : A -> M B) : M B :=
  fun w =>
    match m w with
    | (Returns a, w') => k a w'
    | (Panics p, w') => (Panics p, w')
    end.

Definition raise {A} (p : panic) : M A := fun w => (Panics p, w).

Definition log (e : Event) (w : World) : World :=
  mkWorld (db w) (clock w) (trace w ++ [e]).

Definition time_Now : M Time := fun w => (Returns (clock w), w).

Definition getContract (address : string) : M (option models.Contract) :=
  fun w => (Returns (mongo_getContract (db w) address), log (GetContractEv address) w).

Definition updateContract (c : models.Contract) : M bool :=
  fun w =>
    let (s, ok) := mongo_updateContract (db w) c in
    (Returns ok, log (UpdateContractEv c ok) (mkWorld s (clock w) (trace w))).

Definition compiler_CompileSolidityString (solc source : string)
    : M (option (gmap string compiler.Contract)) :=
  fun w => (Returns (CompileSolidityString solc source), log (CompileEv source) w).

Definition compiler_SolidityVersion (solc : string) : M (option compiler.Solidity) :=
  fun w => (Returns (SolidityVersion solc), log SolidityVersionEv w).

(** [s[n:]] and [l[i]] with their run-time checks. *)
Definition slice (n : nat) (s : string) : M string :=
  match slice_from n s with
  | Some r => ret r
  | None => raise SliceBoundsOutOfRange
  end.

Definition index (l : list string) (i : nat) : M string :=
  match l !! i with
  | Some x => ret x
  | None => raise IndexOutOfRange
  end.

End Monad.

Notation "x <- m ;; k" := (bind m (fun x => k))
  (at level 100, m at next level, right associativity).

(** ** The methods of [Backend] *)

Section Backend.
Context `{Services}.

Definition GetContract (contractAddress : string) : M (option models.Contract) :=
  getContract (HexToAddress_Hex contractAddress).

Definition VerifyContract (contractData : models.Contract)
    : M (option models.Contract * option error) :=
  contract <- GetContract (models.Address contractData) ;;
  match contract with
  | None =>
      ret (None, Some (errors_New "contract with given address not found"))
  | Some contract =>
      if models.Valid contract then
        ret (None, Some (errors_New "contract with given address is already verified"))
      else
        compileData <- compiler_CompileSolidityString "solc" (models.SourceCode contractData) ;;
        match compileData with
        | None =>
            ret (None, Some (errors_New "error occurred while compiling source code"))
        | Some compileData =>
            let key := "<stdin>:" +:+ models.ContractName contractData in
            match compileData !! key with
            | None => ret (None, Some (errors_New "invalid contract name"))
            | Some unit =>
                if String.eqb (compiler.RuntimeCode unit) "" then
                  ret (None, Some (errors_New "contract binary is empty"))
                else
                  sourceBin <- slice 2 (compiler.RuntimeCode unit) ;;
                  let sourceBin := Regexp.ReplaceAllString reg sourceBin "" in
                  let contractBin :=
                    Regexp.ReplaceAllString reg (models.Bytecode contract) "" in
                  if String.eqb sourceBin contractBin then
                    let contract := models.set_Valid true contract in
                    let contract := models.set_Optimization true contract in
                    let contract :=
                      models.set_ContractName (models.ContractName contractData) contract in
                    let contract :=
                      models.set_SourceCode (compiler.Source (compiler.Info unit)) contract in
                    let contract :=
                      models.set_CompilerVersion
                        (compiler.CompilerVersion (compiler.Info unit)) contract in
                    now <- time_Now ;;
                    let contract := models.set_UpdatedAt now contract in
                    result <- updateContract contract ;;
                    if negb result then
                      ret (None, Some (errors_New "error occurred while processing data"))
                    else ret (Some contract, None)
                  else
                    ret (None,
                         Some (errors_New
                                 ("the compiled result does not match the input creation bytecode located at "
                                  +:+ models.Address contractData)))
            end
        end
  end.

Definition GetCompilerVersion : M (string * option error) :=
  result <- compiler_SolidityVersion "solc" ;;
  match result with
  | None => ret ("", Some (errors_New "error occurred while processing"))
  | Some result =>
      let longVersion :=
        Regexp.FindStringSubmatch versionRegexp (compiler.FullVersion result) in
      v <- index longVersion 0 ;;
      ret (v, None)
  end.

End Backend.

(** ** Names of the outcomes

    The error taxonomy of the specification, each name bound to the
    error value the code builds for it. *)

Definition NotFound : error :=
  errors_New "contract with given address not found".
Definition AlreadyVerified : error :=
  errors_New "contract with given address is already verified".
Definition CompilationFailed : error :=
  errors_New "error occurred while compiling source code".
Definition UnknownContractName : error :=
  errors_New "invalid contract name".
Definition EmptyBytecode : error :=
  errors_New "contract binary is empty".
Definition PersistenceFailed : error :=
  errors_New "error occurred while processing data".
Definition BytecodeMismatch (address : string) : error :=
  errors_New ("the compiled result does not match the input creation bytecode located at "
              +:+ address).
Definition VersionQueryFailed : error :=
  errors_New "error occurred while processing".

(** The key under which the compiler files the declared contract. *)
Definition unit_key (contractData : models.Contract) : string :=
  "<stdin>:" +:+ models.ContractName contractData.

(** The record that the success path hands to the store. *)
Definition verified (contractData : models.Contract) (unit : compiler.Contract)
    (now : Time) (contract : models.Contract) : models.Contract :=
  models.mkContract (models.Address contract) (models.Bytecode contract)
    true true (models.ContractName contractData)
    (compiler.Source (compiler.Info unit))
    (compiler.CompilerVersion (compiler.Info unit)) now.

(** [strings.Contains(s, part)] as a proposition. *)
Definition contains (s part : string) : Prop :=
  exists before after, s = before +:+ part +:+ after.

(** ** The metadata-hash pattern *)

Definition LF : ascii := "010"%char.

(** A text that the compiled pattern matches from its first character
    to its last: the marker, a run without line feed, the trailer. *)
Definition metadata_suffix (t : text) : Prop :=
  exists mid, t = marker ++ mid ++ trailer /\ Forall (fun c => c <> LF) mid.

Definition line_feed_free (s : string) : Prop :=
  forallb Regexp.dot (bytes_of s) = true.

(** Modelled from the spec: bytecode is hex-encoded, both the stored
    [bytecode] and, after its [0x], the compiler's [runtimeCode]; the
    importer and the compiler wrapper that produce these strings are
    not among the sources. *)
Definition hex_digit (c : ascii) : bool :=
  let n := nat_of_ascii c in
  ((48 <=? n) && (n <=? 57)) || ((97 <=? n) && (n <=? 102)) || ((65 <=? n) && (n <=? 70)).

Definition hex_string (s : string) : Prop :=
  forallb hex_digit (bytes_of s) = true.

(** Modelled from the spec: [mongo.updateContract] is not among the
    sources; [ContractStore.Update] is atomic and returns false on
    conflict or failure, so a rejected update leaves the store as it
    was. *)
Definition atomic_update `{Services} : Prop :=
  forall s c, snd (mongo_updateContract s c) = false ->
              fst (mongo_updateContract s c) = s.

(** Number of store writes that went through in a trace. *)
Definition is_write (e : Event) : bool :=
  match e with
  | UpdateContractEv _ true => true
  | _ => false
  end.

Definition is_update (e : Event) : bool :=
  match e with
  | UpdateContractEv _ _ => true
  | _ => false
  end.

(** ** A test double for the collaborators

    An in-memory store that takes writes while [online], keyed by the
    address of the record, and a compiler that knows one source. *)

Record MemStore : Type := mkMemStore {
  docs : gmap string models.Contract;
  online : bool
}.

Definition mem_update (s : MemStore) (c : models.Contract) : MemStore * bool :=
  if online s
  then (mkMemStore (<[models.Address c := c]> (docs s)) (online s), true)
  else (s, false).

Definition foo_source : string := "contract Foo {}".

Definition foo_unit : compiler.Contract :=
  compiler.mkContract
    "0x600100a165627a7a72305820aaaa0029"
    (compiler.mkContractInfo foo_source "0.4.24+commit.e67f0147").

Definition mem_compile (solc source : string)
    : option (gmap string compiler.Contract) :=
  if String.eqb source foo_source
  then Some {[ "<stdin>:Foo" := foo_unit;
               "<stdin>:Nil" := compiler.mkContract "" (compiler.mkContractInfo foo_source "");
               "<stdin>:One" := compiler.mkContract "0" (compiler.mkContractInfo foo_source "") ]}
  else None.

Definition mem_services (full_version : option string) : Services :=
  {| Store := MemStore;
     mongo_getContract := fun s a => docs s !! a;
     mongo_updateContract := mem_update;
     HexToAddress_Hex := fun a => a;
     CompileSolidityString := mem_compile;
     SolidityVersion := fun _ => option_map compiler.mkSolidity full_version |}.

Definition fresh (address bytecode : string) : models.Contract :=
  models.mkContract address bytecode false false "" "" "" 0.

Definition submission (address name source : string) : models.Contract :=
  models.mkContract address "" false false name source "" 0.

Definition mem_world (up : bool) (records : list models.Contract)
    : @World (mem_services None) :=
  @mkWorld (mem_services None)
    (mkMemStore (list_to_map (map (fun c => (models.Address c, c)) records)) up)
    42 [].

Definition foo_record : models.Contract :=
  fresh "0xabc" "600100a165627a7a72305820bbbbbb0029".

Definition other_record : models.Contract :=
  fresh "0xdef" "6002".

Definition done_record : models.Contract :=
  models.set_Valid true (fresh "0x123" "6001").

Definition foo_world (up : bool) : @World (mem_services None) :=
  mem_world up [foo_record; other_record; done_record].

Definition foo_submission (address : string) : models.Contract :=
  submission address "Foo" foo_source.

Definition version_world (full_version : string)
    : @World (mem_services (Some full_version)) :=
  @mkWorld (mem_services (Some full_version)) (mkMemStore ∅ true) 42 [].

(** ** The rest of [Backend]

    What the remaining methods with control flow of their own need
    from the store and from the node: the active addresses, the
    contract test, the blocks of the store and of the chain. *)
Class Chain `{Services} : Type := {
  ActiveAddress : Type;
  ActiveAddress_Address : ActiveAddress -> string;
  Block : Type;
  EthBlock : Type;
  mongo_getActiveAdresses : Store -> Time -> list ActiveAddress;
  mongo_isContract : Store -> string -> bool;
  mongo_getBlockByNumber : Store -> Z -> option Block;
  mongo_importBlock : Store -> EthBlock -> Store * option Block;
  goClient_BlockByNumber : Z -> option EthBlock
}.

(** The calls [GetBlockByNumber] makes beyond the first lookup. *)
Inductive Call `{Chain} : Type :=
| BlockByNumberCall (number : Z)
| ImportBlockCall (blockEth : EthBlock).

Section Grabber.
Context `{Chain}.

(** The loop of [GetActiveAdresses]: [append] on each address whose
    contract test agrees with [onlyContracts]. *)
Definition GetActiveAdresses (fromDate : Time) (onlyContracts : bool) (s : Store)
    : list ActiveAddress :=
  fold_left
    (fun selectedAddresses address =>
       if Bool.eqb onlyContracts (mongo_isContract s (ActiveAddress_Address address))
       then selectedAddresses ++ [address]
       else selectedAddresses)
    (mongo_getActiveAdresses s fromDate) [].

(** [GetBlockByNumber]: the result, the store afterwards and the calls
    made to the node and to the importer.  The two log lines are not
    part of the model. *)
Definition GetBlockByNumber (number : Z) (s : Store)
    : option Block * Store * list Call :=
  match mongo_getBlockByNumber s number with
  | Some block => (Some block, s, [])
  | None =>
      match goClient_BlockByNumber number with
      | None => (None, s, [BlockByNumberCall number])
      | Some blockEth =>
          let (s', block) := mongo_importBlock s blockEth in
          (block, s', [BlockByNumberCall number; ImportBlockCall blockEth])
      end
  end.

End Grabber.

(** ** [VerifyReCaptcha] *)

Definition RECAPTCHA_URL : string := "https://www.google.com/recaptcha/api/siteverify".

(** [url.Values] and its [Add]. *)
Definition Values_Add (key value : string) (v : gmap string (list string))
    : gmap string (list string) :=
  <[key := default [] (v !! key) ++ [value]]> v.

(** The fields of [models.ReCaptchaResponse] that are read; the score
    is a [float64], kept abstract. *)
Record ReCaptchaResponse (float64 : Type) : Type := mkReCaptchaResponse {
  Success : bool;
  Score : float64
}.
Arguments mkReCaptchaResponse {float64} _ _.
Arguments Success {float64} _.
Arguments Score {float64} _.

(** The web side: [http.PostForm] ([None] for an error), the decoding
    of the body into the [*models.ReCaptchaResponse] ([None] when the
    pointer stays nil) and the comparison [Score < 0.5]. *)
Class Web : Type := {
  float64 : Type;
  below_half : float64 -> bool;
  Body : Type;
  http_PostForm : string -> gmap string (list string) -> option Body;
  json_Decode : Body -> option (ReCaptchaResponse float64)
}.

(** How a call ends: it returns, it dereferences nil, or [log.Fatal]
    ends the process. *)
Inductive ending (A : Type) : Type :=
| Finished (a : A)
| NilDereference
| Fatal (msg : string).
Arguments Finished {A} a.
Arguments NilDereference {A}.
Arguments Fatal {A} msg.

Definition VerifyReCaptcha `{Web} (reCaptchaSecret token action remoteIp : string)
    : ending (option error) * list (string * gmap string (list string)) :=
  if String.eqb reCaptchaSecret "" then (Finished None, [])
  else
    let params : gmap string (list string) := ∅ in
    let params := Values_Add "secret" reCaptchaSecret params in
    let params := Values_Add "response" token params in
    let params :=
      if negb (String.eqb remoteIp "") then Values_Add "remoteip" remoteIp params
      else params in
    match http_PostForm RECAPTCHA_URL params with
    | None =>
        (Fatal "error occurred during making recaptcha request",
         [(RECAPTCHA_URL, params)])
    | Some resp =>
        match json_Decode resp with
        | None => (NilDereference, [(RECAPTCHA_URL, params)])
        | Some result =>
            if Bool.eqb (Success result) false then
              (Finished (Some (errors_New
                 "error occurred during anti-bot checking. please try again")),
               [(RECAPTCHA_URL, params)])
            else if below_half (Score result) then
              (Finished (Some (errors_New "not handling bot request")),
               [(RECAPTCHA_URL, params)])
            else (Finished None, [(RECAPTCHA_URL, params)])
        end
    end.

(** ** Shapes of version strings *)

Definition all_digits (s : string) : Prop :=
  s <> "" /\ forallb Regexp.digit (bytes_of s) = true.

Definition digit_free (s : string) : Prop :=
  forallb (fun c => negb (Regexp.digit c)) (bytes_of s) = true.

Definition period_free (s : string) : Prop :=
  forallb Regexp.not_period (bytes_of s) = true.

(** [d1.d2.d3+commit.h] *)
Definition version_string (d1 d2 d3 h : string) : string :=
  d1 +:+ "." +:+ d2 +:+ "." +:+ d3 +:+ "+commit." +:+ h.

(** ** Test doubles for the rest *)

Definition mem_chain (active : list string) (contracts : list string)
    : @Chain (mem_services None) :=
  {| ActiveAddress := string;
     ActiveAddress_Address := fun a => a;
     Block := Z;
     EthBlock := Z;
     mongo_getActiveAdresses := fun _ _ => active;
     mongo_isContract := fun _ a => bool_decide (a ∈ contracts);
     mongo_getBlockByNumber := fun _ _ => None;
     mongo_importBlock := fun s b => (s, Some b);
     goClient_BlockByNumber := fun _ => None |}.

Definition mem_web (answer : option (option (ReCaptchaResponse bool))) : Web :=
  {| float64 := bool;
     below_half := fun low => low;
     Body := option (ReCaptchaResponse bool);
     http_PostForm := fun _ _ => answer;
     json_Decode := fun body => body |}.

(** * Properties *)

(** ** Strings and their bytes *)

Lemma string_of_bytes_of (s : string) : string_of (bytes_of s) = s.
Proof. apply string_of_list_ascii_of_string. Qed.

Lemma bytes_of_string_of (t : text) : bytes_of (string_of t) = t.
Proof. apply list_ascii_of_string_of_list_ascii. Qed.

Lemma bytes_of_app (a b : string) : bytes_of (a +:+ b) = bytes_of a ++ bytes_of b.
Proof. induction a as [|c a IH]; simpl; [reflexivity | now rewrite <- IH]. Qed.

Lemma length_bytes_of (s : string) : length (bytes_of s) = String.length s.
Proof. induction s as [|c s IH]; simpl; [reflexivity | now rewrite <- IH]. Qed.

Lemma bytes_of_inj (a b : string) : bytes_of a = bytes_of b -> a = b.
Proof.
  intros E. rewrite <- (string_of_bytes_of a), <- (string_of_bytes_of b).
  now rewrite E.
Qed.

Lemma dot_true (c : ascii) : Regexp.dot c = true <-> c <> LF.
Proof.
  unfold Regexp.dot, LF.
  destruct (Ascii.eqb_spec c "010"%char) as [->|Hne]; simpl; split; congruence.
Qed.

Lemma has_prefix_app (w r : text) : Regexp.has_prefix w (w ++ r) = true.
Proof.
  induction w as [|a w IH]; simpl; [reflexivity|].
  now rewrite Ascii.eqb_refl, IH.
Qed.

Lemma has_prefix_inv (w s : text) :
  Regexp.has_prefix w s = true -> s = w ++ drop (length w) s.
Proof.
  revert s. induction w as [|a w IH]; intros s Hp; simpl in *.
  - reflexivity.
  - destruct s as [|b s]; [discriminate|].
    apply andb_true_iff in Hp as [Hab Hp].
    apply Ascii.eqb_eq in Hab. subst b. simpl. f_equal. now apply IH.
Qed.

(** ** What the compiled pattern matches *)

Lemma match_trailer_Some (pos : nat) (t : text) (r : nat * list nat) :
  Regexp.match_here [Regexp.Lit trailer; Regexp.EndText] pos t = Some r ->
  t = trailer.
Proof.
  cbn [Regexp.match_here].
  destruct (Regexp.has_prefix trailer t) eqn:Hp; [|discriminate].
  apply has_prefix_inv in Hp.
  destruct (drop (length trailer) t) as [|x rest] eqn:Hd; [|discriminate].
  intros _. rewrite Hp. apply app_nil_r.
Qed.

Lemma greedy_tail_Some (mid : text) (pos : nat) :
  Forall (fun c => c <> LF) mid ->
  Regexp.greedy Regexp.dot
    (Regexp.match_here [Regexp.Lit trailer; Regexp.EndText]) pos (mid ++ trailer)
  = Some (pos + length (mid ++ trailer), []).
Proof.
  intros Hmid. revert pos. induction Hmid as [|c mid Hc _ IH]; intros pos.
  - cbn. do 4 f_equal.
  - cbn [app Regexp.greedy].
    apply dot_true in Hc. rewrite Hc, IH.
    cbn [length]. do 2 f_equal. lia.
Qed.

Lemma greedy_tail_inv (t : text) (pos : nat) (r : nat * list nat) :
  Regexp.greedy Regexp.dot
    (Regexp.match_here [Regexp.Lit trailer; Regexp.EndText]) pos t = Some r ->
  exists mid, t = mid ++ trailer /\ Forall (fun c => c <> LF) mid.
Proof.
  revert pos r. induction t as [|c t IH]; intros pos r Hg.
  - cbn in Hg. discriminate.
  - cbn [Regexp.greedy] in Hg.
    assert (Hk : Regexp.match_here [Regexp.Lit trailer; Regexp.EndText] pos (c :: t)
                 = Some r -> exists mid, c :: t = mid ++ trailer
                                         /\ Forall (fun c => c <> LF) mid).
    { intros Hm. apply match_trailer_Some in Hm. exists []. split; [exact Hm | constructor]. }
    destruct (Regexp.dot c) eqn:Hc; [|now apply Hk].
    destruct (Regexp.greedy _ _ (S pos) t) as [r'|] eqn:Hrec; [|now apply Hk].
    destruct (IH _ _ Hrec) as (mid & -> & Hmid).
    exists (c :: mid). split; [reflexivity|].
    constructor; [now apply dot_true | exact Hmid].
Qed.

Lemma match_here_reg_Some (t : text) (pos : nat) :
  metadata_suffix t ->
  Regexp.match_here reg pos t = Some (pos + length t, []).
Proof.
  intros (mid & -> & Hmid).
  unfold reg. cbn [Regexp.match_here].
  rewrite has_prefix_app.
  rewrite drop_app_length.
  rewrite greedy_tail_Some by exact Hmid.
  rewrite (length_app marker). do 2 f_equal. lia.
Qed.

Lemma match_here_reg_inv (t : text) (pos : nat) (r : nat * list nat) :
  Regexp.match_here reg pos t = Some r -> metadata_suffix t.
Proof.
  unfold reg. cbn [Regexp.match_here].
  destruct (Regexp.has_prefix marker t) eqn:Hp; [|discriminate].
  intros Hg. apply greedy_tail_inv in Hg as (mid & Hd & Hmid).
  apply has_prefix_inv in Hp. exists mid. split; [|exact Hmid].
  rewrite Hp at 1. now rewrite Hd.
Qed.

Lemma match_here_reg_None (t : text) (pos : nat) :
  ~ metadata_suffix t -> Regexp.match_here reg pos t = None.
Proof.
  intros Hn. destruct (Regexp.match_here reg pos t) as [r|] eqn:Hm; [|reflexivity].
  exfalso. apply Hn. eapply match_here_reg_inv, Hm.
Qed.

Lemma metadata_suffix_length (t : text) : metadata_suffix t -> 24 <= length t.
Proof.
  intros (mid & -> & _). rewrite !length_app.
  change (length marker) with 20. change (length trailer) with 4. lia.
Qed.

Lemma metadata_suffix_dec (t : text) : metadata_suffix t \/ ~ metadata_suffix t.
Proof.
  destruct (Regexp.match_here reg 0 t) as [r|] eqn:Hm.
  - left. eapply match_here_reg_inv, Hm.
  - right. intros Hs. rewrite (match_here_reg_Some _ _ Hs) in Hm. discriminate.
Qed.

Lemma marker_line_feed_free : Forall (fun c => c <> LF) marker.
Proof. repeat constructor; discriminate. Qed.

Lemma trailer_line_feed_free : Forall (fun c => c <> LF) trailer.
Proof. repeat constructor; discriminate. Qed.

(** A match followed by a match is a match: the run between marker and
    trailer swallows the inner trailer and marker. *)
Lemma metadata_suffix_app (a b : text) :
  metadata_suffix a -> metadata_suffix b -> metadata_suffix (a ++ b).
Proof.
  intros (m1 & -> & H1) (m2 & -> & H2).
  exists (m1 ++ trailer ++ marker ++ m2). split.
  - now rewrite <- !app_assoc.
  - repeat (apply Forall_app; split);
      auto using marker_line_feed_free, trailer_line_feed_free.
Qed.

(** Whether a match starts inside or at the end of a prefix [q] does
    not depend on which metadata suffix follows. *)
Lemma metadata_suffix_swap (q s1 s2 : text) :
  metadata_suffix s1 -> metadata_suffix s2 ->
  metadata_suffix (q ++ s1) -> metadata_suffix (q ++ s2).
Proof.
  intros (m1 & -> & H1) (m2 & -> & H2) (mid & E & Hmid).
  rewrite !app_assoc in E. apply app_inv_tail in E.
  rewrite <- !app_assoc in E.
  assert (Hlen : length marker <= length (q ++ marker))
    by (rewrite length_app; lia).
  assert (Ht : take (length marker) (q ++ marker) = marker).
  { apply (f_equal (take (length marker))) in E.
    rewrite (app_assoc q), take_app_le in E by exact Hlen.
    now rewrite take_app_length in E. }
  pose proof (take_drop (length marker) (q ++ marker)) as Hsplit.
  rewrite Ht in Hsplit.
  set (r := drop (length marker) (q ++ marker)) in *.
  assert (Emid : mid = r ++ m1).
  { rewrite (app_assoc q), <- Hsplit, <- app_assoc in E.
    apply app_inv_head in E. now symmetry. }
  exists (r ++ m2). split.
  - rewrite (app_assoc q marker), <- Hsplit. now rewrite <- !app_assoc.
  - subst mid. apply Forall_app in Hmid as [Hr _].
    apply Forall_app; split; assumption.
Qed.

(** ** The scan of [ReplaceAllString] with the metadata pattern *)

Lemma replace_from_skip (re : Regexp.regex) (repl : text) (s : text) (pos skip : nat) :
  length s <= skip -> Regexp.replace_from re repl pos skip s = [].
Proof.
  revert pos skip. induction s as [|c s IH]; intros pos skip Hle; [reflexivity|].
  destruct skip as [|k]; simpl in Hle; [lia|].
  cbn [Regexp.replace_from]. apply IH. lia.
Qed.

Lemma strip_text_match (t : text) (pos : nat) :
  metadata_suffix t -> Regexp.replace_from reg [] pos 0 t = [].
Proof.
  intros Hs. destruct t as [|c t]; [reflexivity|].
  cbn [Regexp.replace_from]. rewrite (match_here_reg_Some _ _ Hs).
  assert (Hlt : (pos <? pos + length (c :: t)) = true)
    by (apply Nat.ltb_lt; simpl; lia).
  rewrite Hlt. cbn [app]. apply replace_from_skip. simpl. lia.
Qed.

Lemma strip_text_step (c : ascii) (t : text) (pos : nat) :
  ~ metadata_suffix (c :: t) ->
  Regexp.replace_from reg [] pos 0 (c :: t)
  = c :: Regexp.replace_from reg [] (S pos) 0 t.
Proof.
  intros Hn. cbn [Regexp.replace_from].
  now rewrite (match_here_reg_None _ _ Hn).
Qed.

(** The scan cuts the text at the leftmost position from which the
    pattern matches, and leaves a text without such a position alone. *)
Lemma strip_text_spec (t : text) (pos : nat) :
  (exists p tail,
      t = p ++ tail /\ metadata_suffix tail /\
      Regexp.replace_from reg [] pos 0 t = p /\
      forall p1 t1, t = p1 ++ t1 -> metadata_suffix t1 -> length p <= length p1)
  \/ (Regexp.replace_from reg [] pos 0 t = t /\
      forall p1 t1, t = p1 ++ t1 -> ~ metadata_suffix t1).
Proof.
  revert pos. induction t as [|c t IH]; intros pos.
  - right. split; [reflexivity|].
    intros p1 t1 E Hs. apply metadata_suffix_length in Hs.
    apply (f_equal length) in E. rewrite length_app in E. simpl in E. lia.
  - destruct (metadata_suffix_dec (c :: t)) as [Hs|Hn].
    + left. exists [], (c :: t). repeat split; auto.
      * now apply strip_text_match.
      * intros. simpl. lia.
    + rewrite (strip_text_step _ _ _ Hn).
      destruct (IH (S pos)) as [(p & tail & E & Hs & Hr & Hmin)|[Hr Hno]].
      * left. exists (c :: p), tail. repeat split; auto.
        -- now rewrite E.
        -- now rewrite Hr.
        -- intros [|c1 p1] t1 E1 Hs1; simpl in E1.
           ++ subst t1. contradiction.
           ++ injection E1 as _ E1. simpl. apply le_n_S. eapply Hmin; eauto.
      * right. split; [now rewrite Hr|].
        intros [|c1 p1] t1 E1; simpl in E1.
        -- now subst t1.
        -- injection E1 as _ E1. eapply Hno; eauto.
Qed.

Lemma strip_text_idempotent (t : text) (pos pos' : nat) :
  Regexp.replace_from reg [] pos' 0 (Regexp.replace_from reg [] pos 0 t)
  = Regexp.replace_from reg [] pos 0 t.
Proof.
  destruct (strip_text_spec t pos) as [(p & tail & E & Hs & Hr & Hmin)|[Hr _]].
  - rewrite Hr.
    destruct (strip_text_spec p pos') as [(p' & tail' & E' & Hs' & _ & _)|[Hr' _]];
      [exfalso | exact Hr'].
    assert (Hle : length p <= length p').
    { apply (Hmin p' (tail' ++ tail)).
      - now rewrite E, E', <- app_assoc.
      - now apply metadata_suffix_app. }
    apply metadata_suffix_length in Hs'.
    rewrite E', length_app in Hle. lia.
  - rewrite Hr.
    destruct (strip_text_spec t pos') as [(p' & tail' & E' & Hs' & _ & _)|[Hr' _]];
      [|exact Hr'].
    destruct (strip_text_spec t pos) as [(p2 & tail2 & E2 & Hs2 & Hr2 & _)|[_ Hno]].
    + rewrite Hr in Hr2. subst p2.
      apply (f_equal length) in E2. rewrite length_app in E2.
      apply metadata_suffix_length in Hs2. lia.
    + exfalso. eapply Hno; eauto.
Qed.

Lemma strip_text_common_prefix (p s1 s2 : text) (pos : nat) :
  metadata_suffix s1 -> metadata_suffix s2 ->
  Regexp.replace_from reg [] pos 0 (p ++ s1)
  = Regexp.replace_from reg [] pos 0 (p ++ s2).
Proof.
  intros H1 H2. revert pos. induction p as [|c p IH]; intros pos.
  - cbn [app]. now rewrite !strip_text_match.
  - cbn [app]. destruct (metadata_suffix_dec (c :: p ++ s1)) as [Hs|Hn].
    + rewrite (strip_text_match _ _ Hs).
      rewrite strip_text_match; [reflexivity|].
      now apply (metadata_suffix_swap (c :: p) s1 s2).
    + rewrite (strip_text_step _ _ _ Hn).
      rewrite strip_text_step; [now rewrite IH|].
      intros Hs. apply Hn.
      now apply (metadata_suffix_swap (c :: p) s2 s1).
Qed.

Lemma strip_metadata_text (s : string) :
  strip_metadata s = string_of (Regexp.replace_from reg [] 0 0 (bytes_of s)).
Proof. reflexivity. Qed.

Lemma line_feed_free_Forall (s : string) :
  line_feed_free s <-> Forall (fun c => c <> LF) (bytes_of s).
Proof.
  unfold line_feed_free. induction (bytes_of s) as [|c t IH]; simpl.
  - split; [constructor | reflexivity].
  - split.
    + intros Hb. apply andb_true_iff in Hb as [Hc Ht].
      constructor; [now apply dot_true | now apply IH].
    + intros Hf. inversion Hf as [|? ? Hc Ht]; subst.
      apply andb_true_iff. split; [now apply dot_true | now apply IH].
Qed.

(** The two spellings of a text that ends in the pattern. *)
Lemma metadata_suffix_hex (mid : string) :
  line_feed_free mid ->
  metadata_suffix (bytes_of (marker_hex +:+ mid +:+ trailer_hex)).
Proof.
  intros Hmid. exists (bytes_of mid). split.
  - now rewrite !bytes_of_app.
  - now apply line_feed_free_Forall.
Qed.

Lemma metadata_suffix_hex_inv (t : text) :
  metadata_suffix t ->
  exists mid, line_feed_free mid /\ string_of t = marker_hex +:+ mid +:+ trailer_hex.
Proof.
  intros (mid & -> & Hmid). exists (string_of mid). split.
  - apply line_feed_free_Forall. now rewrite bytes_of_string_of.
  - apply bytes_of_inj. rewrite !bytes_of_app, !bytes_of_string_of. reflexivity.
Qed.

(** ** Metadata stripping *)

(** C6: the metadata-hash stripping step is idempotent: applying it
    twice to any string gives the same result as applying it once. *)
Theorem strip_metadata_idempotent (bin : string) :
  strip_metadata (strip_metadata bin) = strip_metadata bin.
Proof.
  rewrite !strip_metadata_text, bytes_of_string_of.
  now rewrite strip_text_idempotent.
Qed.

Lemma hex_digit_dot (c : ascii) : hex_digit c = true -> Regexp.dot c = true.
Proof.
  intros Hc. unfold Regexp.dot.
  destruct (Ascii.eqb_spec c "010"%char) as [->|Hne]; [|reflexivity].
  vm_compute in Hc. discriminate.
Qed.

(** Hexadecimal digits are matched by [.], so a hex string holds no
    line feed. *)
Lemma hex_string_line_feed_free (s : string) : hex_string s -> line_feed_free s.
Proof.
  unfold hex_string, line_feed_free.
  induction (bytes_of s) as [|c t IH]; cbn [forallb]; [reflexivity|].
  intros Hh. apply andb_true_iff in Hh as [Hc Ht].
  now rewrite (hex_digit_dot _ Hc), (IH Ht).
Qed.

(** Two texts that differ only in what stands between the marker and
    the trailer are stripped alike, as long as neither middle part
    holds a line feed. *)
Lemma strip_metadata_common_prefix (prefix mid1 mid2 : string) :
  line_feed_free mid1 -> line_feed_free mid2 ->
  strip_metadata (prefix +:+ marker_hex +:+ mid1 +:+ trailer_hex)
  = strip_metadata (prefix +:+ marker_hex +:+ mid2 +:+ trailer_hex).
Proof.
  intros H1 H2. rewrite !strip_metadata_text. f_equal.
  rewrite !(bytes_of_app prefix).
  apply strip_text_common_prefix; now apply metadata_suffix_hex.
Qed.

(** C7: for every common prefix and every pair of trailing
    metadata-hash suffixes of bytecode, each the marker
    00a165627a7a72305820 followed by any hex characters and ending in
    0029, stripping the prefix with the first suffix and the prefix
    with the second suffix gives equal strings. *)
Theorem strip_metadata_equates_suffixes (prefix mid1 mid2 : string) :
  hex_string mid1 -> hex_string mid2 ->
  strip_metadata (prefix +:+ marker_hex +:+ mid1 +:+ trailer_hex)
  = strip_metadata (prefix +:+ marker_hex +:+ mid2 +:+ trailer_hex).
Proof.
  intros H1 H2.
  apply strip_metadata_common_prefix; now apply hex_string_line_feed_free.
Qed.

Lemma strip_metadata_equates_suffixes_witness :
  hex_string "a1b2c3" /\ hex_string "00ff" /\
  strip_metadata ("6001" +:+ marker_hex +:+ "a1b2c3" +:+ trailer_hex)
  = strip_metadata ("6001" +:+ marker_hex +:+ "00ff" +:+ trailer_hex).
Proof.
  split; [reflexivity|]. split; [reflexivity|].
  apply (strip_metadata_equates_suffixes "6001" "a1b2c3" "00ff"); reflexivity.
Defined.

(** ** The paths through [VerifyContract] *)

Section Paths.
Context `{Services}.
Implicit Types (contractData contract : models.Contract) (w : World).
Implicit Types (compileData : gmap string compiler.Contract) (unit : compiler.Contract).

Ltac run_verify :=
  unfold VerifyContract, GetContract, bind, getContract,
    compiler_CompileSolidityString, updateContract, time_Now, slice, ret, raise,
    unit_key in *.

Lemma VerifyContract_not_found contractData w :
  mongo_getContract (db w) (HexToAddress_Hex (models.Address contractData)) = None ->
  VerifyContract contractData w
  = (Returns (None, Some NotFound),
     log (GetContractEv (HexToAddress_Hex (models.Address contractData))) w).
Proof. intros Hget. run_verify. now rewrite Hget. Qed.

Lemma VerifyContract_already_verified contractData contract w :
  mongo_getContract (db w) (HexToAddress_Hex (models.Address contractData)) = Some contract ->
  models.Valid contract = true ->
  VerifyContract contractData w
  = (Returns (None, Some AlreadyVerified),
     log (GetContractEv (HexToAddress_Hex (models.Address contractData))) w).
Proof. intros Hget Hvalid. run_verify. now rewrite Hget, Hvalid. Qed.

(** The world in which the compiler has answered. *)
Lemma VerifyContract_compilation_failed contractData contract w :
  mongo_getContract (db w) (HexToAddress_Hex (models.Address contractData)) = Some contract ->
  models.Valid contract = false ->
  CompileSolidityString "solc" (models.SourceCode contractData) = None ->
  VerifyContract contractData w
  = (Returns (None, Some CompilationFailed),
     log (CompileEv (models.SourceCode contractData))
       (log (GetContractEv (HexToAddress_Hex (models.Address contractData))) w)).
Proof. intros Hget Hvalid Hc. run_verify. now rewrite Hget, Hvalid, Hc. Qed.

Lemma VerifyContract_unknown_name contractData contract compileData w :
  mongo_getContract (db w) (HexToAddress_Hex (models.Address contractData)) = Some contract ->
  models.Valid contract = false ->
  CompileSolidityString "solc" (models.SourceCode contractData) = Some compileData ->
  compileData !! unit_key contractData = None ->
  VerifyContract contractData w
  = (Returns (None, Some UnknownContractName),
     log (CompileEv (models.SourceCode contractData))
       (log (GetContractEv (HexToAddress_Hex (models.Address contractData))) w)).
Proof. intros Hget Hvalid Hc Hk. run_verify. now rewrite Hget, Hvalid, Hc, Hk. Qed.

Lemma VerifyContract_empty_bytecode contractData contract compileData unit w :
  mongo_getContract (db w) (HexToAddress_Hex (models.Address contractData)) = Some contract ->
  models.Valid contract = false ->
  CompileSolidityString "solc" (models.SourceCode contractData) = Some compileData ->
  compileData !! unit_key contractData = Some unit ->
  compiler.RuntimeCode unit = "" ->
  VerifyContract contractData w
  = (Returns (None, Some EmptyBytecode),
     log (CompileEv (models.SourceCode contractData))
       (log (GetContractEv (HexToAddress_Hex (models.Address contractData))) w)).
Proof.
  intros Hget Hvalid Hc Hk Hrc. run_verify.
  now rewrite Hget, Hvalid, Hc, Hk, Hrc.
Qed.

(** Past the five guards the call slices, strips, compares and, on
    equality, writes once. *)
Lemma VerifyContract_compare contractData contract compileData unit w :
  mongo_getContract (db w) (HexToAddress_Hex (models.Address contractData)) = Some contract ->
  models.Valid contract = false ->
  CompileSolidityString "solc" (models.SourceCode contractData) = Some compileData ->
  compileData !! unit_key contractData = Some unit ->
  compiler.RuntimeCode unit <> "" ->
  VerifyContract contractData w
  = let w2 := log (CompileEv (models.SourceCode contractData))
                (log (GetContractEv (HexToAddress_Hex (models.Address contractData))) w) in
    match slice_from 2 (compiler.RuntimeCode unit) with
    | None => (Panics SliceBoundsOutOfRange, w2)
    | Some sourceBin =>
        if String.eqb (strip_metadata sourceBin) (strip_metadata (models.Bytecode contract))
        then
          let updated := verified contractData unit (clock w) contract in
          let store := mongo_updateContract (db w) updated in
          (Returns (if snd store then (Some updated, None)
                    else (None, Some PersistenceFailed)),
           log (UpdateContractEv updated (snd store))
             (mkWorld (fst store) (clock w) (trace w2)))
        else (Returns (None, Some (BytecodeMismatch (models.Address contractData))), w2)
    end.
Proof.
  intros Hget Hvalid Hc Hk Hrc. run_verify.
  rewrite Hget, Hvalid, Hc, Hk.
  apply String.eqb_neq in Hrc. rewrite Hrc.
  destruct (slice_from 2 (compiler.RuntimeCode unit)) as [sourceBin|]; [|reflexivity].
  fold (strip_metadata sourceBin). fold (strip_metadata (models.Bytecode contract)).
  destruct (String.eqb (strip_metadata sourceBin) _); [|reflexivity].
  cbn [clock db trace log].
  fold (verified contractData unit (clock w) contract).
  destruct (mongo_updateContract _ _) as [s [|]]; reflexivity.
Qed.

End Paths.

(** ** Slicing, stripping and comparing on strings *)

Lemma string_of_app (a b : text) : string_of (a ++ b) = string_of a +:+ string_of b.
Proof. apply bytes_of_inj. now rewrite bytes_of_app, !bytes_of_string_of. Qed.

Lemma length_string_of (t : text) : String.length (string_of t) = length t.
Proof. now rewrite <- length_bytes_of, bytes_of_string_of. Qed.

Lemma append_empty_r (s : string) : s +:+ "" = s.
Proof.
  induction s as [|c s IH]; [reflexivity|].
  change (String c (s +:+ "") = String c s). now rewrite IH.
Qed.

Lemma slice_from_2_cons (c1 c2 : ascii) (rest : string) :
  slice_from 2 (String c1 (String c2 rest)) = Some rest.
Proof.
  change (Some (string_of (bytes_of rest)) = Some rest).
  now rewrite string_of_bytes_of.
Qed.

Lemma slice_from_2_inv (s sourceBin : string) :
  slice_from 2 s = Some sourceBin ->
  exists c1 c2, s = String c1 (String c2 sourceBin).
Proof.
  destruct s as [|c1 [|c2 rest]]; try discriminate.
  rewrite slice_from_2_cons. intros [= <-]. now exists c1, c2.
Qed.

Lemma slice_from_2_short (s : string) :
  String.length s = 1 -> slice_from 2 s = None.
Proof. destruct s as [|c1 [|c2 rest]]; now try discriminate. Qed.

Lemma strip_metadata_cut (bin prefix mid : string) :
  line_feed_free mid ->
  bin = prefix +:+ marker_hex +:+ mid +:+ trailer_hex ->
  exists kept mid',
    line_feed_free mid' /\
    bin = kept +:+ marker_hex +:+ mid' +:+ trailer_hex /\
    strip_metadata bin = kept /\
    String.length kept <= String.length prefix.
Proof.
  intros Hmid E. rewrite strip_metadata_text.
  destruct (strip_text_spec (bytes_of bin) 0)
    as [(p & tail & Ep & Hs & Hr & Hmin)|[_ Hno]].
  - destruct (metadata_suffix_hex_inv _ Hs) as (mid' & Hmid' & Et).
    exists (string_of p), mid'. repeat split.
    + exact Hmid'.
    + rewrite <- Et, <- string_of_app, <- Ep. now rewrite string_of_bytes_of.
    + now rewrite Hr.
    + rewrite length_string_of, <- length_bytes_of.
      apply (Hmin _ (bytes_of (marker_hex +:+ mid +:+ trailer_hex))).
      * now rewrite E, bytes_of_app.
      * now apply metadata_suffix_hex.
  - exfalso.
    apply (Hno (bytes_of prefix) (bytes_of (marker_hex +:+ mid +:+ trailer_hex))).
    + now rewrite E, bytes_of_app.
    + now apply metadata_suffix_hex.
Qed.

Lemma strip_metadata_keep (bin : string) :
  (forall prefix mid, line_feed_free mid ->
                      bin <> prefix +:+ marker_hex +:+ mid +:+ trailer_hex) ->
  strip_metadata bin = bin.
Proof.
  intros Hno. rewrite strip_metadata_text.
  destruct (strip_text_spec (bytes_of bin) 0)
    as [(p & tail & Ep & Hs & _ & _)|[Hr _]].
  - exfalso. destruct (metadata_suffix_hex_inv _ Hs) as (mid' & Hmid' & Et).
    apply (Hno (string_of p) mid' Hmid').
    rewrite <- Et, <- string_of_app, <- Ep. now rewrite string_of_bytes_of.
  - now rewrite Hr, string_of_bytes_of.
Qed.

Lemma BytecodeMismatch_contains (address : string) :
  contains (Error (BytecodeMismatch address)) address.
Proof.
  exists "the compiled result does not match the input creation bytecode located at ", "".
  simpl. now rewrite append_empty_r.
Qed.

Lemma BytecodeMismatch_not_PersistenceFailed (address : string) :
  BytecodeMismatch address <> PersistenceFailed.
Proof. discriminate. Qed.

Lemma BytecodeMismatch_not_EmptyBytecode (address : string) :
  BytecodeMismatch address <> EmptyBytecode.
Proof. discriminate. Qed.

(** ** [VerifyContract] *)

Section VerifyContract.
Context `{Services}.
Implicit Types (contractData contract : models.Contract) (w : World).
Implicit Types (compileData : gmap string compiler.Contract) (unit : compiler.Contract).

(** C1: for a stored record that is not yet valid, when compilation
    succeeds, the unit keyed by the declared name exists with non-empty
    runtime code, the canonical compiled code equals the canonical
    stored bytecode and the store accepts the update, [VerifyContract]
    returns the record with valid and optimization set to true (the
    latter whatever the compiler did), the declared name, the source and
    compiler version reported by the compiler, and the current time. *)
Theorem VerifyContract_success
    contractData contract compileData unit (sourceBin : string) (store : Store) w :
  mongo_getContract (db w) (HexToAddress_Hex (models.Address contractData)) = Some contract ->
  models.Valid contract = false ->
  CompileSolidityString "solc" (models.SourceCode contractData) = Some compileData ->
  compileData !! unit_key contractData = Some unit ->
  compiler.RuntimeCode unit <> "" ->
  slice_from 2 (compiler.RuntimeCode unit) = Some sourceBin ->
  strip_metadata sourceBin = strip_metadata (models.Bytecode contract) ->
  mongo_updateContract (db w) (verified contractData unit (clock w) contract)
  = (store, true) ->
  exists updated,
    fst (VerifyContract contractData w) = Returns (Some updated, None) /\
    models.Valid updated = true /\
    models.Optimization updated = true /\
    models.ContractName updated = models.ContractName contractData /\
    models.SourceCode updated = compiler.Source (compiler.Info unit) /\
    models.CompilerVersion updated = compiler.CompilerVersion (compiler.Info unit) /\
    models.UpdatedAt updated = clock w /\
    models.Address updated = models.Address contract /\
    models.Bytecode updated = models.Bytecode contract /\
    db (snd (VerifyContract contractData w)) = store.
Proof.
  intros Hget Hvalid Hc Hk Hrc Hslice Heq Hupd.
  exists (verified contractData unit (clock w) contract).
  rewrite (VerifyContract_compare _ _ _ _ _ Hget Hvalid Hc Hk Hrc).
  cbv zeta. rewrite Hslice.
  apply String.eqb_eq in Heq. rewrite Heq, Hupd.
  repeat split; reflexivity.
Qed.

(** C8: whenever the canonical compiled bytecode differs from the
    canonical stored bytecode, [VerifyContract] fails with the
    BytecodeMismatch error, whose message contains the submitted
    address. *)
Theorem VerifyContract_mismatch
    contractData contract compileData unit (sourceBin : string) w :
  mongo_getContract (db w) (HexToAddress_Hex (models.Address contractData)) = Some contract ->
  models.Valid contract = false ->
  CompileSolidityString "solc" (models.SourceCode contractData) = Some compileData ->
  compileData !! unit_key contractData = Some unit ->
  compiler.RuntimeCode unit <> "" ->
  slice_from 2 (compiler.RuntimeCode unit) = Some sourceBin ->
  strip_metadata sourceBin <> strip_metadata (models.Bytecode contract) ->
  exists err,
    fst (VerifyContract contractData w) = Returns (None, Some err) /\
    err = BytecodeMismatch (models.Address contractData) /\
    contains (Error err) (models.Address contractData).
Proof.
  intros Hget Hvalid Hc Hk Hrc Hslice Hne.
  exists (BytecodeMismatch (models.Address contractData)).
  rewrite (VerifyContract_compare _ _ _ _ _ Hget Hvalid Hc Hk Hrc).
  cbv zeta. rewrite Hslice.
  apply String.eqb_neq in Hne. rewrite Hne.
  repeat split. apply BytecodeMismatch_contains.
Qed.

(** C10: the empty-bytecode guard rejects the empty runtime code and
    nothing else; a runtime code of one character makes the slice
    [RuntimeCode[2:]] panic; from a longer one the first two characters
    are dropped whatever they are. *)
Theorem VerifyContract_prefix_removal contractData contract compileData unit w :
  mongo_getContract (db w) (HexToAddress_Hex (models.Address contractData)) = Some contract ->
  models.Valid contract = false ->
  CompileSolidityString "solc" (models.SourceCode contractData) = Some compileData ->
  compileData !! unit_key contractData = Some unit ->
  (fst (VerifyContract contractData w) = Returns (None, Some EmptyBytecode)
   <-> compiler.RuntimeCode unit = "") /\
  (String.length (compiler.RuntimeCode unit) = 1 ->
   fst (VerifyContract contractData w) = Panics SliceBoundsOutOfRange) /\
  (forall c1 c2 rest,
      compiler.RuntimeCode unit = String c1 (String c2 rest) ->
      slice_from 2 (compiler.RuntimeCode unit) = Some rest /\
      (fst (VerifyContract contractData w)
       = Returns (None, Some (BytecodeMismatch (models.Address contractData)))
       <-> strip_metadata rest <> strip_metadata (models.Bytecode contract))).
Proof.
  intros Hget Hvalid Hc Hk.
  assert (Hcmp := VerifyContract_compare contractData contract compileData unit w
                    Hget Hvalid Hc Hk).
  cbv zeta in Hcmp.
  split; [|split].
  - split.
    + intros Hres.
      destruct (String.eqb_spec (compiler.RuntimeCode unit) "") as [E|Hrc]; [exact E|].
      exfalso. rewrite (Hcmp Hrc) in Hres.
      destruct (slice_from 2 _); [|discriminate].
      destruct (String.eqb _ _); [|discriminate].
      destruct (mongo_updateContract _ _) as [st [|]]; discriminate.
    + intros Hrc.
      now rewrite (VerifyContract_empty_bytecode _ _ _ _ _ Hget Hvalid Hc Hk Hrc).
  - intros Hlen.
    assert (Hrc : compiler.RuntimeCode unit <> "")
      by (intros E; rewrite E in Hlen; discriminate).
    now rewrite (Hcmp Hrc), (slice_from_2_short _ Hlen).
  - intros c1 c2 rest E.
    assert (Hrc : compiler.RuntimeCode unit <> "") by (rewrite E; discriminate).
    rewrite (Hcmp Hrc), E, slice_from_2_cons.
    split; [reflexivity|].
    destruct (String.eqb_spec (strip_metadata rest)
                (strip_metadata (models.Bytecode contract))) as [Heq|Hne].
    + split; [|contradiction].
      destruct (mongo_updateContract _ _) as [st [|]]; discriminate.
    + split; [intros _; exact Hne | reflexivity].
Qed.

(** Every call ends in one of three ways: after the lookup alone, after
    lookup and compilation, or after lookup, compilation and one call of
    the store's update. *)
Lemma VerifyContract_cases contractData w :
  let address := HexToAddress_Hex (models.Address contractData) in
  let w1 := log (GetContractEv address) w in
  let w2 := log (CompileEv (models.SourceCode contractData)) w1 in
  (VerifyContract contractData w = (Returns (None, Some NotFound), w1) /\
   mongo_getContract (db w) address = None)
  \/ (VerifyContract contractData w = (Returns (None, Some AlreadyVerified), w1))
  \/ (exists out,
        VerifyContract contractData w = (out, w2) /\
        In out [Returns (None, Some CompilationFailed);
                Returns (None, Some UnknownContractName);
                Returns (None, Some EmptyBytecode);
                Returns (None, Some (BytecodeMismatch (models.Address contractData)));
                Panics SliceBoundsOutOfRange])
  \/ (exists contract compileData unit,
        mongo_getContract (db w) address = Some contract /\
        models.Valid contract = false /\
        CompileSolidityString "solc" (models.SourceCode contractData) = Some compileData /\
        compileData !! unit_key contractData = Some unit /\
        let updated := verified contractData unit (clock w) contract in
        let store := mongo_updateContract (db w) updated in
        VerifyContract contractData w
        = (Returns (if snd store then (Some updated, None)
                    else (None, Some PersistenceFailed)),
           log (UpdateContractEv updated (snd store))
             (mkWorld (fst store) (clock w) (trace w2)))).
Proof.
  intros address w1 w2.
  destruct (mongo_getContract (db w) address) as [contract|] eqn:Hget.
  2: { left. split; [now apply VerifyContract_not_found | reflexivity]. }
  destruct (models.Valid contract) eqn:Hvalid.
  { right; left. now apply (VerifyContract_already_verified _ contract). }
  right; right.
  destruct (CompileSolidityString "solc" (models.SourceCode contractData))
    as [compileData|] eqn:Hc.
  2: { left. eexists. split.
       - now apply (VerifyContract_compilation_failed _ contract).
       - simpl. tauto. }
  destruct (compileData !! unit_key contractData) as [unit|] eqn:Hk.
  2: { left. eexists. split.
       - now apply (VerifyContract_unknown_name _ contract compileData).
       - simpl. tauto. }
  destruct (String.eqb_spec (compiler.RuntimeCode unit) "") as [Hrc|Hrc].
  { left. eexists. split.
    - now apply (VerifyContract_empty_bytecode _ contract compileData unit).
    - simpl. tauto. }
  assert (Hcmp := VerifyContract_compare contractData contract compileData unit w
                    Hget Hvalid Hc Hk Hrc).
  cbv zeta in Hcmp.
  destruct (slice_from 2 (compiler.RuntimeCode unit)) as [sourceBin|].
  2: { left. eexists. split; [exact Hcmp | simpl; tauto]. }
  destruct (String.eqb (strip_metadata sourceBin) _).
  - right. exists contract, compileData, unit.
    split; [reflexivity|]. split; [exact Hvalid|].
    split; [reflexivity|]. split; [exact Hk|]. exact Hcmp.
  - left. eexists. split; [exact Hcmp | simpl; tauto].
Qed.

(** C2: before the comparison [VerifyContract] removes the first two
    characters (the leading 0x) from the compiled runtime code only;
    from both the compiled code and the stored bytecode it removes the
    trailing metadata-hash pattern, the marker 00a165627a7a72305820
    followed by any characters (of bytecode: hex characters) up to and
    including 0029 at the end of the string; a string that does not
    contain that pattern is left unchanged; and the two canonical
    strings are compared for exact equality, the mismatch error being
    returned exactly when they differ. *)
Theorem VerifyContract_canonical_comparison
    contractData contract compileData unit (sourceBin : string) w :
  mongo_getContract (db w) (HexToAddress_Hex (models.Address contractData)) = Some contract ->
  models.Valid contract = false ->
  CompileSolidityString "solc" (models.SourceCode contractData) = Some compileData ->
  compileData !! unit_key contractData = Some unit ->
  compiler.RuntimeCode unit <> "" ->
  slice_from 2 (compiler.RuntimeCode unit) = Some sourceBin ->
  (exists c1 c2, compiler.RuntimeCode unit = String c1 (String c2 sourceBin)) /\
  (forall code, compiler.RuntimeCode unit = "0x" +:+ code -> sourceBin = code) /\
  (fst (VerifyContract contractData w)
   = Returns (None, Some (BytecodeMismatch (models.Address contractData)))
   <-> strip_metadata sourceBin <> strip_metadata (models.Bytecode contract)) /\
  (forall bin prefix mid,
      hex_string mid ->
      bin = prefix +:+ marker_hex +:+ mid +:+ trailer_hex ->
      exists kept mid',
        bin = kept +:+ marker_hex +:+ mid' +:+ trailer_hex /\
        strip_metadata bin = kept /\
        String.length kept <= String.length prefix) /\
  (forall bin,
      (forall prefix mid, bin <> prefix +:+ marker_hex +:+ mid +:+ trailer_hex) ->
      strip_metadata bin = bin).
Proof.
  intros Hget Hvalid Hc Hk Hrc Hslice.
  split; [now apply slice_from_2_inv|].
  split.
  { intros code E. rewrite E in Hslice.
    change ("0x" +:+ code) with (String "0" (String "x" code)) in Hslice.
    rewrite slice_from_2_cons in Hslice. now injection Hslice as <-. }
  split; [|split].
  2: { intros bin prefix mid Hmid E.
       destruct (strip_metadata_cut bin prefix mid
                   (hex_string_line_feed_free _ Hmid) E)
         as (kept & mid' & _ & Hb & Hs & Hl).
       now exists kept, mid'. }
  2: { intros bin Hno. apply strip_metadata_keep. intros prefix mid _. apply Hno. }
  rewrite (VerifyContract_compare _ _ _ _ _ Hget Hvalid Hc Hk Hrc).
  cbv zeta. rewrite Hslice.
  destruct (String.eqb_spec (strip_metadata sourceBin)
              (strip_metadata (models.Bytecode contract))) as [Heq|Hne].
  - split; [|contradiction].
    destruct (mongo_updateContract _ _) as [st [|]]; discriminate.
  - split; [intros _; exact Hne | reflexivity].
Qed.

(** C3: verification is write-once.  For a stored record that is
    valid, [VerifyContract] fails with AlreadyVerified whatever source
    and contract name are submitted, without touching the store; and in
    every call the store either stays as it is or takes one update whose
    record has valid set to true. *)
Theorem VerifyContract_write_once contractData contract w :
  mongo_getContract (db w) (HexToAddress_Hex (models.Address contractData)) = Some contract ->
  models.Valid contract = true ->
  VerifyContract contractData w
  = (Returns (None, Some AlreadyVerified),
     log (GetContractEv (HexToAddress_Hex (models.Address contractData))) w)
  /\ forall anyData (anyWorld : World),
       db (snd (VerifyContract anyData anyWorld)) = db anyWorld
       \/ exists updated,
            models.Valid updated = true /\
            db (snd (VerifyContract anyData anyWorld))
            = fst (mongo_updateContract (db anyWorld) updated).
Proof.
  intros Hget Hvalid. split.
  - now apply (VerifyContract_already_verified _ contract).
  - intros anyData anyWorld.
    destruct (VerifyContract_cases anyData anyWorld)
      as [[E _]|[E|[(out & E & _)|(c & m & u & _ & _ & _ & _ & E)]]];
      cbv zeta in E; rewrite E; try (left; reflexivity).
    right. eexists. split; [|reflexivity]. reflexivity.
Qed.

(** C4: a call changes the store at most once and only on the success
    path.  It calls the store's update at most once; when it returns a
    record, that record carries all updated fields and is what the one
    accepted update wrote; on every other outcome, the seven errors
    included, the store is as it was before the call.  The store is
    assumed to keep its content when it rejects an update. *)
Theorem VerifyContract_single_update contractData w :
  atomic_update ->
  exists events,
    trace (snd (VerifyContract contractData w)) = trace w ++ events /\
    length (List.filter is_update events) <= 1 /\
    ((exists updated, fst (VerifyContract contractData w) = Returns (Some updated, None))
     \/ fst (VerifyContract contractData w) = Panics SliceBoundsOutOfRange
     \/ exists err,
          fst (VerifyContract contractData w) = Returns (None, Some err) /\
          In err [NotFound; AlreadyVerified; CompilationFailed; UnknownContractName;
                  EmptyBytecode; BytecodeMismatch (models.Address contractData);
                  PersistenceFailed]) /\
    match fst (VerifyContract contractData w) with
    | Returns (Some updated, None) =>
        exists contract compileData unit,
          mongo_getContract (db w) (HexToAddress_Hex (models.Address contractData))
          = Some contract /\
          CompileSolidityString "solc" (models.SourceCode contractData)
          = Some compileData /\
          compileData !! unit_key contractData = Some unit /\
          updated = verified contractData unit (clock w) contract /\
          mongo_updateContract (db w) updated
          = (db (snd (VerifyContract contractData w)), true) /\
          List.filter is_update events = [UpdateContractEv updated true]
    | _ =>
        db (snd (VerifyContract contractData w)) = db w /\
        List.filter is_write events = []
    end.
Proof.
  intros Hatomic.
  destruct (VerifyContract_cases contractData w)
    as [[E _]|[E|[(out & E & Hout)|(c & m & u & Hget & _ & Hc & Hk & E)]]];
    cbv zeta in E; rewrite E; cbn [fst snd].
  - exists [GetContractEv (HexToAddress_Hex (models.Address contractData))].
    split; [reflexivity|]. split; [simpl; lia|]. split; [|split; reflexivity].
    right; right. eexists. split; [reflexivity | simpl; tauto].
  - exists [GetContractEv (HexToAddress_Hex (models.Address contractData))].
    split; [reflexivity|]. split; [simpl; lia|]. split; [|split; reflexivity].
    right; right. eexists. split; [reflexivity | simpl; tauto].
  - exists [GetContractEv (HexToAddress_Hex (models.Address contractData));
            CompileEv (models.SourceCode contractData)].
    split; [cbn [log trace]; now rewrite <- app_assoc|].
    split; [simpl; lia|].
    simpl in Hout.
    destruct Hout as [<-|[<-|[<-|[<-|[<-|[]]]]]];
      (split; [|split; reflexivity]);
      try (right; right; eexists; split; [reflexivity | simpl; tauto]).
    right; left; reflexivity.
  - exists [GetContractEv (HexToAddress_Hex (models.Address contractData));
            CompileEv (models.SourceCode contractData);
            UpdateContractEv (verified contractData u (clock w) c)
              (snd (mongo_updateContract (db w) (verified contractData u (clock w) c)))].
    split; [cbn [log trace]; now rewrite <- !app_assoc|].
    split; [simpl; lia|].
    pose proof (Hatomic (db w) (verified contractData u (clock w) c)) as Hkeep.
    destruct (mongo_updateContract (db w) (verified contractData u (clock w) c))
      as [store [|]] eqn:Hupd; cbn [fst snd] in *.
    + split; [left; eexists; reflexivity|].
      exists c, m, u. repeat split; [exact Hget | exact Hc | exact Hk | exact Hupd].
    + split; [right; right; eexists; split; [reflexivity | simpl; tauto]|].
      split; [now apply Hkeep | reflexivity].
Qed.

(** C5: the failure conditions are checked in a fixed order.  An
    unknown address gives NotFound after the lookup alone, so the
    compiler is not invoked; a valid record gives AlreadyVerified, again
    before the compiler; then a failing compiler gives
    CompilationFailed; then a missing unit key gives
    UnknownContractName; then an empty runtime code gives
    EmptyBytecode. *)
Theorem VerifyContract_error_order contractData w :
  let address := HexToAddress_Hex (models.Address contractData) in
  (mongo_getContract (db w) address = None ->
   fst (VerifyContract contractData w) = Returns (None, Some NotFound) /\
   trace (snd (VerifyContract contractData w)) = trace w ++ [GetContractEv address])
  /\ (forall contract,
        mongo_getContract (db w) address = Some contract ->
        models.Valid contract = true ->
        fst (VerifyContract contractData w) = Returns (None, Some AlreadyVerified) /\
        trace (snd (VerifyContract contractData w)) = trace w ++ [GetContractEv address])
  /\ (forall contract,
        mongo_getContract (db w) address = Some contract ->
        models.Valid contract = false ->
        CompileSolidityString "solc" (models.SourceCode contractData) = None ->
        fst (VerifyContract contractData w) = Returns (None, Some CompilationFailed))
  /\ (forall contract compileData,
        mongo_getContract (db w) address = Some contract ->
        models.Valid contract = false ->
        CompileSolidityString "solc" (models.SourceCode contractData) = Some compileData ->
        compileData !! ("<stdin>:" +:+ models.ContractName contractData) = None ->
        fst (VerifyContract contractData w) = Returns (None, Some UnknownContractName))
  /\ (forall contract compileData unit,
        mongo_getContract (db w) address = Some contract ->
        models.Valid contract = false ->
        CompileSolidityString "solc" (models.SourceCode contractData) = Some compileData ->
        compileData !! ("<stdin>:" +:+ models.ContractName contractData) = Some unit ->
        compiler.RuntimeCode unit = "" ->
        fst (VerifyContract contractData w) = Returns (None, Some EmptyBytecode)).
Proof.
  intros address. repeat split.
  - now rewrite VerifyContract_not_found.
  - now rewrite VerifyContract_not_found.
  - now rewrite (VerifyContract_already_verified _ contract).
  - now rewrite (VerifyContract_already_verified _ contract).
  - intros contract Hget Hvalid Hc.
    now rewrite (VerifyContract_compilation_failed _ contract).
  - intros contract compileData Hget Hvalid Hc Hk.
    now rewrite (VerifyContract_unknown_name _ contract compileData).
  - intros contract compileData unit Hget Hvalid Hc Hk Hrc.
    now rewrite (VerifyContract_empty_bytecode _ contract compileData unit).
Qed.

End VerifyContract.

(** ** [GetCompilerVersion] *)

Section GetCompilerVersion.
Context `{Services}.

Lemma GetCompilerVersion_query_failed (w : World) :
  SolidityVersion "solc" = None ->
  GetCompilerVersion w = (Returns ("", Some VersionQueryFailed), log SolidityVersionEv w).
Proof.
  intros Hq. unfold GetCompilerVersion, bind, compiler_SolidityVersion, ret.
  now rewrite Hq.
Qed.

Lemma GetCompilerVersion_matched (w : World) (result : compiler.Solidity)
    (version : string) (rest : list string) :
  SolidityVersion "solc" = Some result ->
  Regexp.FindStringSubmatch versionRegexp (compiler.FullVersion result) = version :: rest ->
  GetCompilerVersion w = (Returns (version, None), log SolidityVersionEv w).
Proof.
  intros Hq Hm. unfold GetCompilerVersion, bind, compiler_SolidityVersion, index, ret.
  now rewrite Hq, Hm.
Qed.

(** C9 does not hold of the code: when the version query succeeds and
    the full-version string has no part of the form
    MAJOR.MINOR.PATCH+commit.<hash>, [GetCompilerVersion] indexes the
    nil match result and panics; it does not return an error. *)
Theorem GetCompilerVersion_unmatched_panics (w : World) (result : compiler.Solidity) :
  SolidityVersion "solc" = Some result ->
  Regexp.FindStringSubmatch versionRegexp (compiler.FullVersion result) = [] ->
  GetCompilerVersion w = (Panics IndexOutOfRange, log SolidityVersionEv w).
Proof.
  intros Hq Hm. unfold GetCompilerVersion, bind, compiler_SolidityVersion, index, raise.
  now rewrite Hq, Hm.
Qed.

End GetCompilerVersion.

(** ** The statements at concrete inputs *)

Lemma mem_store_atomic (full_version : option string) :
  @atomic_update (mem_services full_version).
Proof.
  intros s c. simpl. unfold mem_update.
  destruct (online s); simpl; congruence.
Qed.

(** On the in-memory store a record that is valid stays valid across
    any call, whatever address the call is for. *)
Lemma mem_store_valid_kept (full_version : option string)
    (w : @World (mem_services full_version))
    (contractData : models.Contract) (address : string) (record : models.Contract) :
  docs (db w) !! address = Some record ->
  models.Valid record = true ->
  exists record',
    docs (db (snd (@VerifyContract (mem_services full_version) contractData w))) !! address
    = Some record' /\
    models.Valid record' = true.
Proof.
  intros Hlook Hvalid.
  destruct (@VerifyContract_cases (mem_services full_version) contractData w)
    as [[E _]|[E|[(out & E & _)|(c & m & u & _ & _ & _ & _ & E)]]];
    cbv zeta in E; rewrite E; cbn [snd log db]; eauto.
  cbn [mongo_updateContract mem_services]. unfold mem_update.
  destruct (online (db w)); cbn [fst docs]; eauto.
  rewrite lookup_insert. destruct (decide _); eauto.
Qed.

Lemma GetCompilerVersion_unmatched_panics_witness :
  fst (@GetCompilerVersion (mem_services (Some "0.4.24")) (version_world "0.4.24"))
  = Panics IndexOutOfRange.
Proof.
  rewrite (@GetCompilerVersion_unmatched_panics (mem_services (Some "0.4.24"))
             (version_world "0.4.24") (compiler.mkSolidity "0.4.24"));
    vm_compute; reflexivity.
Defined.

Lemma VerifyContract_success_witness :
  exists updated,
    fst (@VerifyContract (mem_services None) (foo_submission "0xabc") (foo_world true))
    = Returns (Some updated, None) /\
    models.Valid updated = true /\
    models.ContractName updated = "Foo".
Proof.
  destruct (@VerifyContract_success (mem_services None)
              (foo_submission "0xabc") foo_record
              (default ∅ (mem_compile "solc" foo_source)) foo_unit "600100a165627a7a72305820aaaa0029"
              (fst (mem_update (db (foo_world true))
                      (verified (foo_submission "0xabc") foo_unit 42 foo_record)))
              (foo_world true))
    as (updated & Hres & Hvalid & _ & Hname & _);
    [vm_compute; reflexivity | reflexivity | vm_compute; reflexivity
    | vm_compute; reflexivity | discriminate | vm_compute; reflexivity
    | vm_compute; reflexivity | vm_compute; reflexivity |].
  exists updated. split; [exact Hres | split; [exact Hvalid | exact Hname]].
Defined.

Lemma VerifyContract_mismatch_witness :
  exists err,
    fst (@VerifyContract (mem_services None) (foo_submission "0xdef") (foo_world true))
    = Returns (None, Some err) /\
    err = BytecodeMismatch "0xdef" /\
    contains (Error err) "0xdef".
Proof.
  apply (@VerifyContract_mismatch (mem_services None)
           (foo_submission "0xdef") other_record
           (default ∅ (mem_compile "solc" foo_source)) foo_unit
           "600100a165627a7a72305820aaaa0029" (foo_world true));
    [vm_compute; reflexivity | reflexivity | vm_compute; reflexivity
    | vm_compute; reflexivity | discriminate | vm_compute; reflexivity
    | vm_compute; discriminate].
Defined.

Lemma VerifyContract_prefix_removal_witness :
  fst (@VerifyContract (mem_services None) (submission "0xabc" "One" foo_source)
         (foo_world true))
  = Panics SliceBoundsOutOfRange.
Proof.
  apply (@VerifyContract_prefix_removal (mem_services None)
           (submission "0xabc" "One" foo_source) foo_record
           (default ∅ (mem_compile "solc" foo_source))
           (compiler.mkContract "0" (compiler.mkContractInfo foo_source ""))
           (foo_world true));
    vm_compute; reflexivity.
Defined.

Lemma VerifyContract_canonical_comparison_witness :
  compiler.RuntimeCode foo_unit = String "0" (String "x" "600100a165627a7a72305820aaaa0029")
  /\ strip_metadata "600100a165627a7a72305820aaaa0029" = "6001"
  /\ strip_metadata (models.Bytecode foo_record) = "6001"
  /\ fst (@VerifyContract (mem_services None) (foo_submission "0xabc") (foo_world true))
     <> Returns (None, Some (BytecodeMismatch "0xabc")).
Proof.
  destruct (@VerifyContract_canonical_comparison (mem_services None)
              (foo_submission "0xabc") foo_record
              (default ∅ (mem_compile "solc" foo_source)) foo_unit
              "600100a165627a7a72305820aaaa0029" (foo_world true))
    as (_ & _ & Hcmp & _ & _);
    [vm_compute; reflexivity | reflexivity | vm_compute; reflexivity
    | vm_compute; reflexivity | discriminate | vm_compute; reflexivity |].
  split; [reflexivity|]. split; [vm_compute; reflexivity|].
  split; [vm_compute; reflexivity|].
  intros Hres. apply Hcmp in Hres. apply Hres. vm_compute. reflexivity.
Defined.

Lemma VerifyContract_write_once_witness :
  @VerifyContract (mem_services None) (foo_submission "0x123") (foo_world true)
  = (Returns (None, Some AlreadyVerified),
     log (GetContractEv "0x123") (foo_world true)).
Proof.
  apply (@VerifyContract_write_once (mem_services None)
           (foo_submission "0x123") done_record (foo_world true));
    vm_compute; reflexivity.
Defined.

Lemma VerifyContract_single_update_witness :
  fst (@VerifyContract (mem_services None) (foo_submission "0xabc") (foo_world false))
  = Returns (None, Some PersistenceFailed) /\
  db (snd (@VerifyContract (mem_services None) (foo_submission "0xabc") (foo_world false)))
  = db (foo_world false).
Proof.
  split; [vm_compute; reflexivity|].
  destruct (@VerifyContract_single_update (mem_services None)
              (foo_submission "0xabc") (foo_world false) (mem_store_atomic None))
    as (events & _ & _ & _ & Hstore).
  assert (E : fst (@VerifyContract (mem_services None) (foo_submission "0xabc")
                     (foo_world false))
              = Returns (None, Some PersistenceFailed))
    by (vm_compute; reflexivity).
  rewrite E in Hstore. apply Hstore.
Defined.

Lemma VerifyContract_error_order_witness :
  fst (@VerifyContract (mem_services None) (foo_submission "0x000") (foo_world true))
  = Returns (None, Some NotFound) /\
  trace (snd (@VerifyContract (mem_services None) (foo_submission "0x000") (foo_world true)))
  = [GetContractEv "0x000"].
Proof.
  apply (@VerifyContract_error_order (mem_services None)
           (foo_submission "0x000") (foo_world true)).
  vm_compute. reflexivity.
Defined.

(** ** Sample runs *)

Example strip_sample :
  strip_metadata "600100a165627a7a72305820abcdef0029" = "6001".
Proof. vm_compute. reflexivity. Qed.

Example strip_unmarked : strip_metadata "60016002" = "60016002".
Proof. vm_compute. reflexivity. Qed.

Example strip_leftmost :
  strip_metadata "6000a165627a7a723058200000a165627a7a72305820ff0029" = "60".
Proof. vm_compute. reflexivity. Qed.

Example strip_case_sensitive :
  strip_metadata "60aa" <> strip_metadata "60AA".
Proof. vm_compute. discriminate. Qed.

Example version_sample :
  Regexp.FindStringSubmatch versionRegexp "0.4.24+commit.e67f0147.Linux.g++"
  = ["0.4.24+commit.e67f0147"; "0"; "4"; "24"].
Proof. vm_compute. reflexivity. Qed.

Example version_release_only :
  Regexp.FindStringSubmatch versionRegexp "0.4.24" = [].
Proof. vm_compute. reflexivity. Qed.

Example verify_empty_unit :
  fst (@VerifyContract (mem_services None) (submission "0xabc" "Nil" foo_source)
         (foo_world true))
  = Returns (None, Some EmptyBytecode).
Proof. vm_compute. reflexivity. Qed.

Example verify_unknown_name :
  fst (@VerifyContract (mem_services None) (submission "0xabc" "Bar" foo_source)
         (foo_world true))
  = Returns (None, Some UnknownContractName).
Proof. vm_compute. reflexivity. Qed.

(** * Further properties *)

(** ** More on metadata stripping *)

Lemma metadata_suffix_line_feed_free (t : text) :
  metadata_suffix t -> Forall (fun c => c <> LF) t.
Proof.
  intros (mid & -> & Hmid).
  repeat (apply Forall_app; split);
    auto using marker_line_feed_free, trailer_line_feed_free.
Qed.

Lemma strip_text_pos (t : text) (pos pos' : nat) :
  Regexp.replace_from reg [] pos 0 t = Regexp.replace_from reg [] pos' 0 t.
Proof.
  revert pos pos'. induction t as [|c t IH]; intros pos pos'; [reflexivity|].
  destruct (metadata_suffix_dec (c :: t)) as [Hs|Hn].
  - now rewrite !(strip_text_match _ _ Hs).
  - rewrite !(strip_text_step _ _ _ Hn). f_equal. apply IH.
Qed.

Lemma strip_text_after_line_feed (a b : text) (pos : nat) :
  Regexp.replace_from reg [] pos 0 (a ++ LF :: b)
  = a ++ LF :: Regexp.replace_from reg [] 0 0 b.
Proof.
  assert (Hno : forall x, ~ metadata_suffix (x ++ LF :: b)).
  { intros x Hs. apply metadata_suffix_line_feed_free in Hs.
    apply Forall_app in Hs as [_ Hs]. inversion Hs; subst. congruence. }
  revert pos. induction a as [|c a IH]; intros pos; cbn [app].
  - rewrite strip_text_step by apply (Hno []). f_equal. apply strip_text_pos.
  - rewrite strip_text_step by apply (Hno (c :: a)). f_equal. apply IH.
Qed.

(** X1: stripping only ever cuts off an end of the string: the result
    is a prefix of the input. *)
Theorem strip_metadata_is_prefix (bin : string) :
  exists removed, bin = strip_metadata bin +:+ removed.
Proof.
  rewrite strip_metadata_text.
  destruct (strip_text_spec (bytes_of bin) 0)
    as [(p & tail & Ep & _ & Hr & _)|[Hr _]]; rewrite Hr.
  - exists (string_of tail).
    now rewrite <- string_of_app, <- Ep, string_of_bytes_of.
  - exists "". now rewrite string_of_bytes_of, append_empty_r.
Qed.

(** X2: what stripping returns never ends in the pattern again: no
    marker in the result is followed by a run without line feed and a
    final 0029. *)
Theorem strip_metadata_leaves_no_suffix (bin prefix mid : string) :
  line_feed_free mid ->
  strip_metadata bin <> prefix +:+ marker_hex +:+ mid +:+ trailer_hex.
Proof.
  intros Hmid E.
  apply (f_equal bytes_of) in E.
  rewrite strip_metadata_text, bytes_of_string_of, bytes_of_app in E.
  pose proof (metadata_suffix_hex mid Hmid) as Hs.
  destruct (strip_text_spec (bytes_of bin) 0)
    as [(p & tail & Ep & Hs' & Hr & Hmin)|[Hr Hno]]; rewrite Hr in E.
  - assert (Hle : length p <= length (bytes_of prefix)).
    { apply (Hmin _ (bytes_of (marker_hex +:+ mid +:+ trailer_hex) ++ tail)).
      - now rewrite Ep, E, <- app_assoc.
      - now apply metadata_suffix_app. }
    apply metadata_suffix_length in Hs.
    rewrite E, length_app in Hle. lia.
  - now apply (Hno _ _ E).
Qed.

Lemma strip_metadata_leaves_no_suffix_witness :
  strip_metadata "600100a165627a7a72305820aa002900a165627a7a72305820bb0029"
  <> "6001" +:+ marker_hex +:+ "aa" +:+ trailer_hex.
Proof.
  apply (strip_metadata_leaves_no_suffix
           "600100a165627a7a72305820aa002900a165627a7a72305820bb0029" "6001" "aa").
  reflexivity.
Defined.

(** X3: a line feed shields everything before it: the text up to and
    including the last line feed is kept, and only what follows it is
    stripped. *)
Theorem strip_metadata_after_line_feed (before after : string) :
  strip_metadata (before +:+ String LF after)
  = before +:+ String LF (strip_metadata after).
Proof.
  rewrite !strip_metadata_text, bytes_of_app.
  change (bytes_of (String LF after)) with (LF :: bytes_of after).
  rewrite strip_text_after_line_feed.
  apply bytes_of_inj.
  rewrite bytes_of_string_of, bytes_of_app.
  change (bytes_of (String LF ?s)) with (LF :: bytes_of s).
  now rewrite bytes_of_string_of.
Qed.

(** ** More on [VerifyContract] *)

Section VerifyContractMore.
Context `{Services}.
Implicit Types (contractData contract updated : models.Contract) (w : World).
Implicit Types (compileData : gmap string compiler.Contract) (unit : compiler.Contract).

(** X4: a returned record is proof of a match.  Whenever
    [VerifyContract] returns a record, the address was known, the stored
    record was not valid, the source compiled, the declared unit was
    there, the two canonical strings were equal and the store accepted
    the update. *)
Theorem VerifyContract_success_only_if contractData updated w :
  fst (VerifyContract contractData w) = Returns (Some updated, None) ->
  exists contract compileData unit sourceBin,
    mongo_getContract (db w) (HexToAddress_Hex (models.Address contractData))
    = Some contract /\
    models.Valid contract = false /\
    CompileSolidityString "solc" (models.SourceCode contractData) = Some compileData /\
    compileData !! unit_key contractData = Some unit /\
    slice_from 2 (compiler.RuntimeCode unit) = Some sourceBin /\
    strip_metadata sourceBin = strip_metadata (models.Bytecode contract) /\
    updated = verified contractData unit (clock w) contract /\
    mongo_updateContract (db w) updated
    = (db (snd (VerifyContract contractData w)), true).
Proof.
  destruct (mongo_getContract (db w) (HexToAddress_Hex (models.Address contractData)))
    as [contract|] eqn:Hget.
  2: { rewrite (VerifyContract_not_found _ _ Hget). discriminate. }
  destruct (models.Valid contract) eqn:Hvalid.
  { rewrite (VerifyContract_already_verified _ _ _ Hget Hvalid). discriminate. }
  destruct (CompileSolidityString "solc" (models.SourceCode contractData))
    as [compileData|] eqn:Hc.
  2: { rewrite (VerifyContract_compilation_failed _ _ _ Hget Hvalid Hc). discriminate. }
  destruct (compileData !! unit_key contractData) as [unit|] eqn:Hk.
  2: { rewrite (VerifyContract_unknown_name _ _ _ _ Hget Hvalid Hc Hk). discriminate. }
  destruct (String.eqb_spec (compiler.RuntimeCode unit) "") as [Hrc|Hrc].
  { rewrite (VerifyContract_empty_bytecode _ _ _ _ _ Hget Hvalid Hc Hk Hrc). discriminate. }
  rewrite (VerifyContract_compare _ _ _ _ _ Hget Hvalid Hc Hk Hrc). cbv zeta.
  destruct (slice_from 2 (compiler.RuntimeCode unit)) as [sourceBin|] eqn:Hslice;
    [|discriminate].
  destruct (String.eqb_spec (strip_metadata sourceBin)
              (strip_metadata (models.Bytecode contract))) as [Heq|Hne]; [|discriminate].
  destruct (mongo_updateContract (db w) (verified contractData unit (clock w) contract))
    as [store [|]] eqn:Hupd; cbn [fst snd]; [|discriminate].
  intros [= <-].
  exists contract, compileData, unit, sourceBin.
  repeat split; try assumption; try reflexivity.
Qed.

(** X5: the metadata hash does not count.  When the stored bytecode
    and the compiled runtime code, after its first two characters, are
    the same body followed by metadata suffixes that may differ,
    verification of a fresh record goes through to the store and, if
    the store accepts, returns the verified record. *)
Theorem VerifyContract_ignores_metadata_hash
    contractData contract compileData unit (c1 c2 : ascii) (body mid1 mid2 : string)
    (store : Store) w :
  mongo_getContract (db w) (HexToAddress_Hex (models.Address contractData)) = Some contract ->
  models.Valid contract = false ->
  CompileSolidityString "solc" (models.SourceCode contractData) = Some compileData ->
  compileData !! unit_key contractData = Some unit ->
  compiler.RuntimeCode unit
  = String c1 (String c2 (body +:+ marker_hex +:+ mid1 +:+ trailer_hex)) ->
  models.Bytecode contract = body +:+ marker_hex +:+ mid2 +:+ trailer_hex ->
  line_feed_free mid1 -> line_feed_free mid2 ->
  mongo_updateContract (db w) (verified contractData unit (clock w) contract)
  = (store, true) ->
  VerifyContract contractData w
  = (Returns (Some (verified contractData unit (clock w) contract), None),
     log (UpdateContractEv (verified contractData unit (clock w) contract) true)
       (mkWorld store (clock w)
          (trace w ++ [GetContractEv (HexToAddress_Hex (models.Address contractData))]
                   ++ [CompileEv (models.SourceCode contractData)]))).
Proof.
  intros Hget Hvalid Hc Hk Hrc Hb H1 H2 Hupd.
  assert (Hne : compiler.RuntimeCode unit <> "") by (rewrite Hrc; discriminate).
  rewrite (VerifyContract_compare _ _ _ _ _ Hget Hvalid Hc Hk Hne). cbv zeta.
  rewrite Hrc, slice_from_2_cons, Hb.
  assert (Heq : strip_metadata (body +:+ marker_hex +:+ mid1 +:+ trailer_hex)
                = strip_metadata (body +:+ marker_hex +:+ mid2 +:+ trailer_hex)).
  { rewrite !strip_metadata_text. f_equal. rewrite !(bytes_of_app body).
    apply strip_text_common_prefix; now apply metadata_suffix_hex. }
  apply String.eqb_eq in Heq. rewrite Heq, Hupd. cbn [fst snd log trace db clock].
  now rewrite <- app_assoc.
Qed.

(** X6: a verified contract cannot be verified again.  After a call
    that returned a record, if the store hands that record back for an
    address, every further call for that address, with whatever source
    and name, is rejected as AlreadyVerified and leaves the store
    alone. *)
Theorem VerifyContract_second_call_rejected contractData updated other w :
  fst (VerifyContract contractData w) = Returns (Some updated, None) ->
  mongo_getContract (db (snd (VerifyContract contractData w)))
    (HexToAddress_Hex (models.Address other)) = Some updated ->
  VerifyContract other (snd (VerifyContract contractData w))
  = (Returns (None, Some AlreadyVerified),
     log (GetContractEv (HexToAddress_Hex (models.Address other)))
       (snd (VerifyContract contractData w))).
Proof.
  intros Hres Hback.
  apply (VerifyContract_already_verified _ updated); [exact Hback|].
  destruct (VerifyContract_cases contractData w)
    as [[E _]|[E|[(out & E & Hout)|(c & m & u & _ & _ & _ & _ & E)]]];
    cbv zeta in E; rewrite E in Hres; cbn [fst] in Hres; try discriminate.
  - simpl in Hout.
    destruct Hout as [<-|[<-|[<-|[<-|[<-|[]]]]]]; discriminate.
  - destruct (snd (mongo_updateContract _ _)); [|discriminate].
    injection Hres as <-. reflexivity.
Qed.

(** X7: of the submitted record only the address, the contract name
    and the source are read; whatever the caller puts into the other
    fields (bytecode, valid, optimization, compiler version, time) has
    no effect on the result or on the store. *)
Theorem VerifyContract_reads_three_fields contractData other w :
  models.Address contractData = models.Address other ->
  models.ContractName contractData = models.ContractName other ->
  models.SourceCode contractData = models.SourceCode other ->
  VerifyContract contractData w = VerifyContract other w.
Proof.
  intros Ha Hn Hs.
  unfold VerifyContract, GetContract. now rewrite Ha, Hn, Hs.
Qed.

End VerifyContractMore.

(** ** The matcher, atom by atom *)

Lemma greedy_inv {R : Type} (cls : ascii -> bool) (k : nat -> text -> option R)
    (s : text) (pos : nat) (r : R) :
  Regexp.greedy cls k pos s = Some r ->
  exists run rest,
    s = run ++ rest /\ forallb cls run = true /\ k (pos + length run) rest = Some r.
Proof.
  revert pos. induction s as [|c s IH]; intros pos Hg.
  - exists [], []. cbn in Hg. now rewrite Nat.add_0_r.
  - cbn [Regexp.greedy] in Hg.
    assert (Hstay : k pos (c :: s) = Some r ->
                    exists run rest, c :: s = run ++ rest /\ forallb cls run = true
                                     /\ k (pos + length run) rest = Some r).
    { intros Hk. exists [], (c :: s). now rewrite Nat.add_0_r. }
    destruct (cls c) eqn:Hc; [|now apply Hstay].
    destruct (Regexp.greedy cls k (S pos) s) as [r'|] eqn:Hrec; [|now apply Hstay].
    injection Hg as <-.
    destruct (IH _ Hrec) as (run & rest & -> & Hf & Hk).
    exists (c :: run), rest. cbn [app forallb length]. rewrite Hc, Hf.
    repeat split. now rewrite Nat.add_succ_r.
Qed.

Lemma greedy_maximal {R : Type} (cls : ascii -> bool) (k : nat -> text -> option R)
    (run rest : text) (pos : nat) (r : R) :
  forallb cls run = true ->
  match rest with [] => True | c :: _ => cls c = false end ->
  k (pos + length run) rest = Some r ->
  Regexp.greedy cls k pos (run ++ rest) = Some r.
Proof.
  intros Hf Hstop. revert pos. induction run as [|c run IH]; intros pos Hk.
  - cbn [app]. cbn [length] in Hk. rewrite Nat.add_0_r in Hk.
    destruct rest as [|c rest]; cbn [Regexp.greedy]; [exact Hk|].
    now rewrite Hstop.
  - cbn [forallb] in Hf. apply andb_true_iff in Hf as [Hc Hf].
    cbn [app Regexp.greedy]. rewrite Hc.
    rewrite (IH Hf (S pos)); [reflexivity|].
    cbn [length] in Hk. now rewrite Nat.add_succ_r in Hk.
Qed.

Lemma match_mark_inv (re : Regexp.regex) (pos : nat) (s : text) (r : nat * list nat) :
  Regexp.match_here (Regexp.Mark :: re) pos s = Some r ->
  exists ms, Regexp.match_here re pos s = Some (fst r, ms).
Proof.
  cbn [Regexp.match_here].
  destruct (Regexp.match_here re pos s) as [[e ms]|]; [|discriminate].
  intros [= <-]. now exists ms.
Qed.

Lemma match_lit_inv (w : text) (re : Regexp.regex) (pos : nat) (s : text)
    (r : nat * list nat) :
  Regexp.match_here (Regexp.Lit w :: re) pos s = Some r ->
  exists rest, s = w ++ rest /\ Regexp.match_here re (pos + length w) rest = Some r.
Proof.
  cbn [Regexp.match_here].
  destruct (Regexp.has_prefix w s) eqn:Hp; [|discriminate].
  intros Hm. exists (drop (length w) s). split; [now apply has_prefix_inv | exact Hm].
Qed.

Lemma match_plus_inv (cls : ascii -> bool) (re : Regexp.regex) (pos : nat) (s : text)
    (r : nat * list nat) :
  Regexp.match_here (Regexp.Plus cls :: re) pos s = Some r ->
  exists run rest,
    run <> [] /\ s = run ++ rest /\ forallb cls run = true /\
    Regexp.match_here re (pos + length run) rest = Some r.
Proof.
  cbn [Regexp.match_here]. destruct s as [|c s]; [discriminate|].
  destruct (cls c) eqn:Hc; [|discriminate].
  intros Hg. apply greedy_inv in Hg as (run & rest & -> & Hf & Hk).
  exists (c :: run), rest. cbn [app forallb length]. rewrite Hc, Hf.
  repeat split; [discriminate|]. now rewrite Nat.add_succ_r.
Qed.

Lemma match_star_inv (cls : ascii -> bool) (re : Regexp.regex) (pos : nat) (s : text)
    (r : nat * list nat) :
  Regexp.match_here (Regexp.Star cls :: re) pos s = Some r ->
  exists run rest,
    s = run ++ rest /\ forallb cls run = true /\
    Regexp.match_here re (pos + length run) rest = Some r.
Proof. cbn [Regexp.match_here]. apply greedy_inv. Qed.

Lemma match_mark_intro (re : Regexp.regex) (pos e : nat) (s : text) :
  (exists ms, Regexp.match_here re pos s = Some (e, ms)) ->
  exists ms, Regexp.match_here (Regexp.Mark :: re) pos s = Some (e, ms).
Proof.
  intros (ms & Hm). exists (pos :: ms). cbn [Regexp.match_here]. now rewrite Hm.
Qed.

Lemma match_lit_intro (w : text) (re : Regexp.regex) (pos e : nat) (rest : text) :
  (exists ms, Regexp.match_here re (pos + length w) rest = Some (e, ms)) ->
  exists ms, Regexp.match_here (Regexp.Lit w :: re) pos (w ++ rest) = Some (e, ms).
Proof.
  intros (ms & Hm). exists ms. cbn [Regexp.match_here].
  now rewrite has_prefix_app, drop_app_length.
Qed.

Lemma match_plus_intro (cls : ascii -> bool) (re : Regexp.regex) (pos e : nat)
    (run rest : text) :
  run <> [] -> forallb cls run = true ->
  match rest with [] => True | c :: _ => cls c = false end ->
  (exists ms, Regexp.match_here re (pos + length run) rest = Some (e, ms)) ->
  exists ms, Regexp.match_here (Regexp.Plus cls :: re) pos (run ++ rest) = Some (e, ms).
Proof.
  intros Hne Hf Hstop (ms & Hm). exists ms.
  destruct run as [|c run]; [contradiction|].
  cbn [forallb] in Hf. apply andb_true_iff in Hf as [Hc Hf].
  cbn [app Regexp.match_here]. rewrite Hc.
  apply greedy_maximal; [exact Hf | exact Hstop|].
  cbn [length] in Hm. now rewrite Nat.add_succ_r in Hm.
Qed.

Lemma match_star_intro (cls : ascii -> bool) (re : Regexp.regex) (pos e : nat)
    (run rest : text) :
  forallb cls run = true ->
  match rest with [] => True | c :: _ => cls c = false end ->
  (exists ms, Regexp.match_here re (pos + length run) rest = Some (e, ms)) ->
  exists ms, Regexp.match_here (Regexp.Star cls :: re) pos (run ++ rest) = Some (e, ms).
Proof.
  intros Hf Hstop (ms & Hm). exists ms. cbn [Regexp.match_here].
  now apply greedy_maximal.
Qed.

Lemma find_from_inv (re : Regexp.regex) (s : text) (pos a e : nat) (ms : list nat) :
  Regexp.find_from re pos s = Some (a, e, ms) ->
  exists skipped rest,
    s = skipped ++ rest /\ a = pos + length skipped /\
    Regexp.match_here re a rest = Some (e, ms).
Proof.
  revert pos. induction s as [|c s IH]; intros pos; cbn [Regexp.find_from].
  - destruct (Regexp.match_here re pos []) as [[e' ms']|] eqn:Hm; [|discriminate].
    intros [= <- <- <-]. exists [], []. now rewrite Nat.add_0_r.
  - destruct (Regexp.match_here re pos (c :: s)) as [[e' ms']|] eqn:Hm.
    + intros [= <- <- <-]. exists [], (c :: s). now rewrite Nat.add_0_r.
    + intros Hf. destruct (IH _ Hf) as (skipped & rest & -> & -> & Hm').
      exists (c :: skipped), rest. cbn [app length].
      rewrite Nat.add_succ_r. auto.
Qed.

Lemma sub_middle (before m after : text) :
  Regexp.sub (before ++ m ++ after) (length before) (length before + length m)
  = string_of m.
Proof.
  unfold Regexp.sub. f_equal.
  rewrite drop_app_length.
  replace (length before + length m - length before) with (length m) by lia.
  apply take_app_length.
Qed.

(** ** The version pattern *)

Lemma find_from_here (re : Regexp.regex) (s : text) (pos e : nat) (ms : list nat) :
  Regexp.match_here re pos s = Some (e, ms) ->
  Regexp.find_from re pos s = Some (pos, e, ms).
Proof. intros Hm. destruct s; cbn [Regexp.find_from]; now rewrite Hm. Qed.

Lemma find_from_version_skip (before s : text) (pos : nat) :
  forallb (fun c => negb (Regexp.digit c)) before = true ->
  Regexp.find_from versionRegexp pos (before ++ s)
  = Regexp.find_from versionRegexp (pos + length before) s.
Proof.
  revert pos. induction before as [|c before IH]; intros pos Hf.
  - cbn [app length]. now rewrite Nat.add_0_r.
  - cbn [forallb] in Hf. apply andb_true_iff in Hf as [Hc Hf].
    apply negb_true_iff in Hc.
    cbn [app length Regexp.find_from]. unfold versionRegexp at 1.
    cbn [Regexp.match_here]. rewrite Hc.
    rewrite (IH (S pos) Hf). now rewrite Nat.add_succ_r.
Qed.

Lemma match_version_inv (t : text) (pos e : nat) (ms : list nat) :
  Regexp.match_here versionRegexp pos t = Some (e, ms) ->
  exists d1 d2 d3 h rest,
    t = d1 ++ bytes_of "." ++ d2 ++ bytes_of "." ++ d3 ++ bytes_of "+commit." ++ h ++ rest /\
    (d1 <> [] /\ forallb Regexp.digit d1 = true) /\
    (d2 <> [] /\ forallb Regexp.digit d2 = true) /\
    (d3 <> [] /\ forallb Regexp.digit d3 = true) /\
    forallb Regexp.not_period h = true /\
    e = pos + length (d1 ++ bytes_of "." ++ d2 ++ bytes_of "." ++ d3
                         ++ bytes_of "+commit." ++ h).
Proof.
  unfold versionRegexp. intros Hm.
  apply match_mark_inv in Hm as (m1 & Hm). cbn [fst] in Hm.
  apply match_plus_inv in Hm as (d1 & t1 & Hn1 & -> & Hd1 & Hm).
  apply match_mark_inv in Hm as (m2 & Hm). cbn [fst] in Hm.
  apply match_lit_inv in Hm as (t2 & -> & Hm).
  apply match_mark_inv in Hm as (m3 & Hm). cbn [fst] in Hm.
  apply match_plus_inv in Hm as (d2 & t3 & Hn2 & -> & Hd2 & Hm).
  apply match_mark_inv in Hm as (m4 & Hm). cbn [fst] in Hm.
  apply match_lit_inv in Hm as (t4 & -> & Hm).
  apply match_mark_inv in Hm as (m5 & Hm). cbn [fst] in Hm.
  apply match_plus_inv in Hm as (d3 & t5 & Hn3 & -> & Hd3 & Hm).
  apply match_mark_inv in Hm as (m6 & Hm). cbn [fst] in Hm.
  apply match_lit_inv in Hm as (t6 & -> & Hm).
  apply match_star_inv in Hm as (h & rest & -> & Hh & Hm).
  cbn [Regexp.match_here] in Hm. injection Hm as <- _.
  exists d1, d2, d3, h, rest. repeat split; try assumption.
  rewrite !length_app.
  change (length (bytes_of ".")) with 1. change (length (bytes_of "+commit.")) with 8.
  lia.
Qed.

Lemma match_version_intro (d1 d2 d3 h rest : text) (pos : nat) :
  d1 <> [] -> forallb Regexp.digit d1 = true ->
  d2 <> [] -> forallb Regexp.digit d2 = true ->
  d3 <> [] -> forallb Regexp.digit d3 = true ->
  forallb Regexp.not_period h = true ->
  match rest with [] => True | c :: _ => Regexp.not_period c = false end ->
  exists ms,
    Regexp.match_here versionRegexp pos
      (d1 ++ bytes_of "." ++ d2 ++ bytes_of "." ++ d3 ++ bytes_of "+commit." ++ h ++ rest)
    = Some (pos + length (d1 ++ bytes_of "." ++ d2 ++ bytes_of "." ++ d3
                             ++ bytes_of "+commit." ++ h), ms).
Proof.
  intros Hn1 Hd1 Hn2 Hd2 Hn3 Hd3 Hh Hstop. unfold versionRegexp.
  apply match_mark_intro, match_plus_intro; [exact Hn1 | exact Hd1 | reflexivity|].
  apply match_mark_intro, match_lit_intro.
  apply match_mark_intro, match_plus_intro; [exact Hn2 | exact Hd2 | reflexivity|].
  apply match_mark_intro, match_lit_intro.
  apply match_mark_intro, match_plus_intro; [exact Hn3 | exact Hd3 | reflexivity|].
  apply match_mark_intro, match_lit_intro.
  apply match_star_intro; [exact Hh | exact Hstop|].
  exists []. cbn [Regexp.match_here]. do 2 f_equal.
  rewrite !length_app.
  change (length (bytes_of ".")) with 1. change (length (bytes_of "+commit.")) with 8.
  lia.
Qed.

Lemma bytes_of_version_string (d1 d2 d3 h : string) :
  bytes_of (version_string d1 d2 d3 h)
  = bytes_of d1 ++ bytes_of "." ++ bytes_of d2 ++ bytes_of "." ++ bytes_of d3
    ++ bytes_of "+commit." ++ bytes_of h.
Proof. unfold version_string. now rewrite !bytes_of_app. Qed.

Lemma string_of_nonempty (t : text) : t <> [] -> string_of t <> "".
Proof.
  intros Hn E. apply Hn. apply (f_equal bytes_of) in E.
  now rewrite bytes_of_string_of in E.
Qed.

Lemma bytes_of_nonempty (s : string) : s <> "" -> bytes_of s <> [].
Proof. intros Hn E. apply Hn. apply bytes_of_inj. exact E. Qed.

(** What [FindStringSubmatch] finds with the version pattern is a part
    of the text of the shape [d1.d2.d3+commit.h]. *)
Lemma FindStringSubmatch_version_inv (full version : string) (groups : list string) :
  Regexp.FindStringSubmatch versionRegexp full = version :: groups ->
  exists before after d1 d2 d3 h,
    full = before +:+ version +:+ after /\
    version = version_string d1 d2 d3 h /\
    all_digits d1 /\ all_digits d2 /\ all_digits d3 /\ period_free h.
Proof.
  unfold Regexp.FindStringSubmatch.
  destruct (Regexp.find_from versionRegexp 0 (bytes_of full)) as [[[a e] ms]|] eqn:Hf;
    [|discriminate].
  intros [= <- _].
  apply find_from_inv in Hf as (skipped & t & Efull & -> & Hm).
  apply match_version_inv in Hm
    as (d1 & d2 & d3 & h & rest & -> & [Hn1 Hd1] & [Hn2 Hd2] & [Hn3 Hd3] & Hh & ->).
  cbn [Nat.add] in *.
  set (m := d1 ++ bytes_of "." ++ d2 ++ bytes_of "." ++ d3 ++ bytes_of "+commit." ++ h) in *.
  assert (Esplit : bytes_of full = skipped ++ m ++ rest)
    by (rewrite Efull; unfold m; now rewrite <- !app_assoc).
  rewrite Esplit, sub_middle.
  exists (string_of skipped), (string_of rest),
    (string_of d1), (string_of d2), (string_of d3), (string_of h).
  split; [|split].
  - apply bytes_of_inj. now rewrite !bytes_of_app, !bytes_of_string_of.
  - apply bytes_of_inj.
    now rewrite bytes_of_version_string, !bytes_of_string_of.
  - unfold all_digits, period_free. rewrite !bytes_of_string_of.
    auto 10 using string_of_nonempty.
Qed.

(** A version of that shape, after a text without digits and before
    the end or a period, is what [FindStringSubmatch] finds. *)
Lemma FindStringSubmatch_version_intro (before after d1 d2 d3 h : string) :
  digit_free before ->
  all_digits d1 -> all_digits d2 -> all_digits d3 -> period_free h ->
  after = "" \/ (exists rest, after = String "."%char rest) ->
  exists groups,
    Regexp.FindStringSubmatch versionRegexp
      (before +:+ version_string d1 d2 d3 h +:+ after)
    = version_string d1 d2 d3 h :: groups.
Proof.
  intros Hb [Hn1 Hd1] [Hn2 Hd2] [Hn3 Hd3] Hh Hafter.
  unfold Regexp.FindStringSubmatch.
  rewrite !bytes_of_app, bytes_of_version_string.
  rewrite (find_from_version_skip _ _ 0 Hb). cbn [Nat.add].
  destruct (match_version_intro (bytes_of d1) (bytes_of d2) (bytes_of d3) (bytes_of h)
              (bytes_of after) (length (bytes_of before)))
    as (ms & Hm); auto using bytes_of_nonempty.
  { destruct Hafter as [->|(rest & ->)]; [exact I | reflexivity]. }
  rewrite <- !app_assoc.
  rewrite (find_from_here _ _ _ _ _ Hm).
  eexists. f_equal.
  set (m := bytes_of d1 ++ bytes_of "." ++ bytes_of d2 ++ bytes_of "." ++ bytes_of d3
            ++ bytes_of "+commit." ++ bytes_of h).
  replace (bytes_of d1 ++ bytes_of "." ++ bytes_of d2 ++ bytes_of "." ++ bytes_of d3
           ++ bytes_of "+commit." ++ bytes_of h ++ bytes_of after)
    with (m ++ bytes_of after) by (unfold m; now rewrite <- !app_assoc).
  rewrite sub_middle. apply bytes_of_inj.
  now rewrite bytes_of_string_of, bytes_of_version_string.
Qed.

(** ** More on [GetCompilerVersion] *)

Section GetCompilerVersionMore.
Context `{Services}.

(** X8: whatever [GetCompilerVersion] returns without error is a part
    of the compiler's full version string and has the shape
    [d1.d2.d3+commit.h], with [d1], [d2], [d3] non-empty runs of
    decimal digits and [h] free of periods. *)
Theorem GetCompilerVersion_sound (w w' : World) (version : string) :
  GetCompilerVersion w = (Returns (version, None), w') ->
  exists result before after d1 d2 d3 h,
    SolidityVersion "solc" = Some result /\
    compiler.FullVersion result = before +:+ version +:+ after /\
    version = version_string d1 d2 d3 h /\
    all_digits d1 /\ all_digits d2 /\ all_digits d3 /\ period_free h.
Proof.
  unfold GetCompilerVersion, bind, compiler_SolidityVersion, index, ret, raise.
  destruct (SolidityVersion "solc") as [result|] eqn:Hq; [|discriminate].
  destruct (Regexp.FindStringSubmatch versionRegexp (compiler.FullVersion result))
    as [|v groups] eqn:Hm; cbn [lookup list_lookup]; [discriminate|].
  intros [= <- _].
  destruct (FindStringSubmatch_version_inv _ _ _ Hm)
    as (before & after & d1 & d2 & d3 & h & Hfull & Hv & Hshape).
  exists result, before, after, d1, d2, d3, h. auto.
Qed.

(** X9: from a full version string that, after a text without digits,
    reads [d1.d2.d3+commit.h] and then ends or goes on with a period,
    [GetCompilerVersion] returns exactly [d1.d2.d3+commit.h]. *)
Theorem GetCompilerVersion_extracts (w : World) (result : compiler.Solidity)
    (before after d1 d2 d3 h : string) :
  SolidityVersion "solc" = Some result ->
  compiler.FullVersion result = before +:+ version_string d1 d2 d3 h +:+ after ->
  digit_free before ->
  all_digits d1 -> all_digits d2 -> all_digits d3 -> period_free h ->
  after = "" \/ (exists rest, after = String "."%char rest) ->
  GetCompilerVersion w
  = (Returns (version_string d1 d2 d3 h, None), log SolidityVersionEv w).
Proof.
  intros Hq Hfull Hb H1 H2 H3 Hh Hafter.
  destruct (FindStringSubmatch_version_intro before after d1 d2 d3 h
              Hb H1 H2 H3 Hh Hafter) as (groups & Hm).
  rewrite <- Hfull in Hm.
  exact (GetCompilerVersion_matched w result _ groups Hq Hm).
Qed.

End GetCompilerVersionMore.

(** ** [GetActiveAdresses] and [GetBlockByNumber] *)

Lemma fold_left_select {A : Type} (keep : A -> bool) (l acc : list A) :
  fold_left (fun selected x => if keep x then selected ++ [x] else selected) l acc
  = acc ++ List.filter keep l.
Proof.
  revert acc. induction l as [|x l IH]; intros acc; cbn [fold_left List.filter].
  - now rewrite app_nil_r.
  - rewrite IH. destruct (keep x); [now rewrite <- app_assoc | reflexivity].
Qed.

Lemma filter_split_Permutation {A : Type} (keep : A -> bool) (l : list A) :
  Permutation (List.filter keep l ++ List.filter (fun x => negb (keep x)) l) l.
Proof.
  induction l as [|x l IH]; cbn [List.filter]; [constructor|].
  destruct (keep x); cbn [negb app].
  - now constructor.
  - symmetry. apply Permutation_cons_app. now symmetry.
Qed.

Section GrabberProperties.
Context `{Chain}.

(** X10: the selection is the store's list of active addresses with
    the entries dropped whose contract test differs from
    [onlyContracts]: every other entry is kept, as often as the store
    lists it and in the store's order. *)
Theorem GetActiveAdresses_selects (fromDate : Time) (onlyContracts : bool) (s : Store) :
  GetActiveAdresses fromDate onlyContracts s
  = List.filter
      (fun address =>
         Bool.eqb onlyContracts (mongo_isContract s (ActiveAddress_Address address)))
      (mongo_getActiveAdresses s fromDate)
  /\ (forall address,
      In address (GetActiveAdresses fromDate onlyContracts s) <->
      In address (mongo_getActiveAdresses s fromDate) /\
      mongo_isContract s (ActiveAddress_Address address) = onlyContracts)
  /\ sublist (GetActiveAdresses fromDate onlyContracts s)
             (mongo_getActiveAdresses s fromDate).
Proof.
  unfold GetActiveAdresses.
  rewrite (fold_left_select
             (fun a => Bool.eqb onlyContracts (mongo_isContract s (ActiveAddress_Address a)))).
  cbn [app]. split; [reflexivity|]. split.
  - intros address. rewrite filter_In.
    destruct onlyContracts, (mongo_isContract s (ActiveAddress_Address address));
      cbn [Bool.eqb]; intuition congruence.
  - induction (mongo_getActiveAdresses s fromDate) as [|a l IH]; cbn [List.filter].
    + constructor.
    + destruct (Bool.eqb _ _); now constructor.
Qed.

(** X11: the selection of contracts and the selection of
    non-contracts split the active addresses: together they are a
    permutation of the store's list, so no address is lost or taken
    twice. *)
Theorem GetActiveAdresses_split (fromDate : Time) (s : Store) :
  Permutation
    (GetActiveAdresses fromDate true s ++ GetActiveAdresses fromDate false s)
    (mongo_getActiveAdresses s fromDate)
  /\ length (GetActiveAdresses fromDate true s)
     + length (GetActiveAdresses fromDate false s)
     = length (mongo_getActiveAdresses s fromDate).
Proof.
  assert (HP : Permutation
                 (GetActiveAdresses fromDate true s ++ GetActiveAdresses fromDate false s)
                 (mongo_getActiveAdresses s fromDate)).
  { unfold GetActiveAdresses.
    rewrite !fold_left_select. cbn [app].
    erewrite (List.filter_ext _ (fun a => mongo_isContract s (ActiveAddress_Address a)));
      [|intros a; now destruct (mongo_isContract s (ActiveAddress_Address a))].
    erewrite (List.filter_ext (fun a => Bool.eqb false _)
                (fun a => negb (mongo_isContract s (ActiveAddress_Address a))));
      [|intros a; now destruct (mongo_isContract s (ActiveAddress_Address a))].
    apply filter_split_Permutation. }
  split; [exact HP|].
  apply Permutation_length in HP. now rewrite length_app in HP.
Qed.

(** X12: [GetBlockByNumber] asks the node only for a block the store
    lacks, returns a stored block as it is, returns nil when the node
    fails, and leaves the store unchanged unless it imports the block
    the node delivered. *)
Theorem GetBlockByNumber_import_policy (number : Z) (s : Store) :
  (forall block, mongo_getBlockByNumber s number = Some block ->
                 GetBlockByNumber number s = (Some block, s, []))
  /\ (forall asked, In (BlockByNumberCall asked) (snd (GetBlockByNumber number s)) ->
                    asked = number /\ mongo_getBlockByNumber s number = None)
  /\ (mongo_getBlockByNumber s number = None ->
      goClient_BlockByNumber number = None ->
      GetBlockByNumber number s = (None, s, [BlockByNumberCall number]))
  /\ (snd (fst (GetBlockByNumber number s)) = s
      \/ exists blockEth,
           mongo_getBlockByNumber s number = None /\
           goClient_BlockByNumber number = Some blockEth /\
           fst (GetBlockByNumber number s)
           = (snd (mongo_importBlock s blockEth), fst (mongo_importBlock s blockEth))).
Proof.
  unfold GetBlockByNumber.
  destruct (mongo_getBlockByNumber s number) as [block|] eqn:Hb.
  - split; [intros b [= <-]; reflexivity|].
    split; [intros asked []|].
    split; [intros [=]|]. now left.
  - destruct (goClient_BlockByNumber number) as [blockEth|] eqn:Hn.
    + destruct (mongo_importBlock s blockEth) as [s' block] eqn:Hi. cbn [fst snd].
      split; [intros b [=]|].
      split; [intros asked [[= <-]|[[=]|[]]]; now split|].
      split; [intros _ [=]|].
      right. exists blockEth. now rewrite Hi.
    + cbn [fst snd].
      split; [intros b [=]|].
      split; [intros asked [[= <-]|[]]; now split|].
      split; [reflexivity|]. now left.
Qed.

End GrabberProperties.

(** ** [VerifyReCaptcha] *)

Section ReCaptcha.
Context `{Web}.

Lemma VerifyReCaptcha_posts (reCaptchaSecret token action remoteIp : string) :
  reCaptchaSecret <> "" ->
  snd (VerifyReCaptcha reCaptchaSecret token action remoteIp)
  = [(RECAPTCHA_URL,
      if negb (String.eqb remoteIp "")
      then Values_Add "remoteip" remoteIp
             (Values_Add "response" token (Values_Add "secret" reCaptchaSecret ∅))
      else Values_Add "response" token (Values_Add "secret" reCaptchaSecret ∅))].
Proof.
  intros Hs. unfold VerifyReCaptcha.
  apply String.eqb_neq in Hs. rewrite Hs. cbv zeta.
  destruct (http_PostForm _ _) as [body|]; [|reflexivity].
  destruct (json_Decode body) as [result|]; [|reflexivity].
  destruct (Bool.eqb _ _); [reflexivity|].
  destruct (below_half _); reflexivity.
Qed.

(** X13: with a secret configured, one form is posted, to the
    verification URL, and it holds the secret, the token and, only
    when it is not empty, the remote address, each once and nothing
    else; the action takes no part in the call. *)
Theorem VerifyReCaptcha_request (reCaptchaSecret token action remoteIp : string) :
  reCaptchaSecret <> "" ->
  (exists params,
      snd (VerifyReCaptcha reCaptchaSecret token action remoteIp)
      = [(RECAPTCHA_URL, params)] /\
      params !! "secret" = Some [reCaptchaSecret] /\
      params !! "response" = Some [token] /\
      params !! "remoteip" = (if String.eqb remoteIp "" then None else Some [remoteIp]) /\
      forall key, key <> "secret" -> key <> "response" -> key <> "remoteip" ->
                  params !! key = None)
  /\ forall action',
       VerifyReCaptcha reCaptchaSecret token action' remoteIp
       = VerifyReCaptcha reCaptchaSecret token action remoteIp.
Proof.
  intros Hs. split; [|reflexivity].
  eexists. split; [now apply VerifyReCaptcha_posts|].
  unfold Values_Add.
  destruct (String.eqb remoteIp ""); cbn [negb];
    repeat split; intros; simplify_map_eq; reflexivity.
Qed.

(** X14: a call passes exactly when no secret is configured, or when
    the post succeeded and the decoded response has success set and a
    score that is not below one half. *)
Theorem VerifyReCaptcha_passes (reCaptchaSecret token action remoteIp : string) :
  fst (VerifyReCaptcha reCaptchaSecret token action remoteIp) = Finished None
  <-> reCaptchaSecret = ""
      \/ exists params body result,
           snd (VerifyReCaptcha reCaptchaSecret token action remoteIp)
           = [(RECAPTCHA_URL, params)] /\
           http_PostForm RECAPTCHA_URL params = Some body /\
           json_Decode body = Some result /\
           Success result = true /\
           below_half (Score result) = false.
Proof.
  destruct (String.eqb_spec reCaptchaSecret "") as [->|Hs].
  { split; [now left | reflexivity]. }
  rewrite (VerifyReCaptcha_posts _ token action remoteIp Hs).
  unfold VerifyReCaptcha.
  pose proof Hs as Hb. apply String.eqb_neq in Hb. rewrite Hb. cbv zeta.
  set (params := if negb (String.eqb remoteIp "") then _ else _).
  split.
  - intros Hres. right.
    destruct (http_PostForm RECAPTCHA_URL params) as [body|] eqn:Hp; [|discriminate].
    destruct (json_Decode body) as [result|] eqn:Hd; [|discriminate].
    exists params, body, result.
    destruct (Success result); cbn [Bool.eqb] in Hres; [|discriminate].
    destruct (below_half (Score result)); [discriminate|].
    repeat split; assumption.
  - intros [E|(params' & body & result & [= <-] & Hp & Hd & Hok & Hscore)];
      [contradiction|].
    now rewrite Hp, Hd, Hok, Hscore.
Qed.

(** X15: with a secret configured, a failed post ends the process
    through [log.Fatal] instead of returning an error, and a response
    that decodes to the nil pointer is dereferenced. *)
Theorem VerifyReCaptcha_breaks (reCaptchaSecret token action remoteIp : string) :
  reCaptchaSecret <> "" ->
  ((forall params, http_PostForm RECAPTCHA_URL params = None) ->
   fst (VerifyReCaptcha reCaptchaSecret token action remoteIp)
   = Fatal "error occurred during making recaptcha request")
  /\ ((forall params, exists body,
          http_PostForm RECAPTCHA_URL params = Some body /\ json_Decode body = None) ->
      fst (VerifyReCaptcha reCaptchaSecret token action remoteIp) = NilDereference).
Proof.
  intros Hs. apply String.eqb_neq in Hs.
  unfold VerifyReCaptcha. rewrite Hs. cbv zeta.
  set (params := if negb (String.eqb remoteIp "") then _ else _).
  split.
  - intros Hfail. now rewrite (Hfail params).
  - intros Hnil. destruct (Hnil params) as (body & Hp & Hd). now rewrite Hp, Hd.
Qed.

End ReCaptcha.

(** ** The further statements at concrete inputs *)

Lemma VerifyContract_success_only_if_witness :
  exists contract,
    docs (db (foo_world true)) !! "0xabc" = Some contract /\
    models.Valid contract = false.
Proof.
  destruct (@VerifyContract_success_only_if (mem_services None)
              (foo_submission "0xabc")
              (verified (foo_submission "0xabc") foo_unit 42 foo_record)
              (foo_world true))
    as (contract & compileData & unit & sourceBin & Hget & Hvalid & _);
    [vm_compute; reflexivity|].
  exists contract. split; [exact Hget | exact Hvalid].
Defined.

Lemma VerifyContract_ignores_metadata_hash_witness :
  fst (@VerifyContract (mem_services None) (foo_submission "0xabc") (foo_world true))
  = Returns (Some (verified (foo_submission "0xabc") foo_unit 42 foo_record), None).
Proof.
  rewrite (@VerifyContract_ignores_metadata_hash (mem_services None)
             (foo_submission "0xabc") foo_record
             (default ∅ (mem_compile "solc" foo_source)) foo_unit
             "0"%char "x"%char "6001" "aaaa" "bbbbbb"
             (fst (mem_update (db (foo_world true))
                     (verified (foo_submission "0xabc") foo_unit 42 foo_record)))
             (foo_world true));
    vm_compute; reflexivity.
Defined.

Lemma VerifyContract_second_call_rejected_witness :
  fst (@VerifyContract (mem_services None) (submission "0xabc" "Bar" "contract Bar {}")
         (snd (@VerifyContract (mem_services None) (foo_submission "0xabc")
                 (foo_world true))))
  = Returns (None, Some AlreadyVerified).
Proof.
  rewrite (@VerifyContract_second_call_rejected (mem_services None)
             (foo_submission "0xabc")
             (verified (foo_submission "0xabc") foo_unit 42 foo_record)
             (submission "0xabc" "Bar" "contract Bar {}") (foo_world true));
    vm_compute; reflexivity.
Defined.

Lemma VerifyContract_reads_three_fields_witness :
  @VerifyContract (mem_services None) (foo_submission "0xabc") (foo_world true)
  = @VerifyContract (mem_services None)
      (models.mkContract "0xabc" "ffff" true true "Foo" foo_source "9.9.9" 7)
      (foo_world true).
Proof.
  apply (@VerifyContract_reads_three_fields (mem_services None)); reflexivity.
Defined.

Lemma GetCompilerVersion_sound_witness :
  exists result before after d1 d2 d3 h,
    @SolidityVersion (mem_services (Some "Version: 0.4.24+commit.e67f0147.Linux.g++")) "solc"
    = Some result /\
    compiler.FullVersion result = before +:+ "0.4.24+commit.e67f0147" +:+ after /\
    "0.4.24+commit.e67f0147" = version_string d1 d2 d3 h /\
    all_digits d1 /\ all_digits d2 /\ all_digits d3 /\ period_free h.
Proof.
  apply (@GetCompilerVersion_sound
           (mem_services (Some "Version: 0.4.24+commit.e67f0147.Linux.g++"))
           (version_world "Version: 0.4.24+commit.e67f0147.Linux.g++")
           (log SolidityVersionEv
              (version_world "Version: 0.4.24+commit.e67f0147.Linux.g++"))).
  vm_compute. reflexivity.
Defined.

Lemma GetCompilerVersion_extracts_witness :
  fst (@GetCompilerVersion
         (mem_services (Some "Version: 0.4.24+commit.e67f0147.Linux.g++"))
         (version_world "Version: 0.4.24+commit.e67f0147.Linux.g++"))
  = Returns ("0.4.24+commit.e67f0147", None).
Proof.
  rewrite (@GetCompilerVersion_extracts
             (mem_services (Some "Version: 0.4.24+commit.e67f0147.Linux.g++"))
             (version_world "Version: 0.4.24+commit.e67f0147.Linux.g++")
             (compiler.mkSolidity "Version: 0.4.24+commit.e67f0147.Linux.g++")
             "Version: " ".Linux.g++" "0" "4" "24" "e67f0147");
    try reflexivity;
    try (split; [discriminate | reflexivity]).
  right. now exists "Linux.g++".
Defined.

Lemma VerifyReCaptcha_request_witness :
  exists params,
    snd (@VerifyReCaptcha (mem_web None) "secret-key" "token" "login" "")
    = [(RECAPTCHA_URL, params)] /\
    params !! "remoteip" = None.
Proof.
  destruct (@VerifyReCaptcha_request (mem_web None) "secret-key" "token" "login" "")
    as [(params & Hreq & _ & _ & Hip & _) _]; [discriminate|].
  exists params. split; [exact Hreq | exact Hip].
Defined.

Lemma VerifyReCaptcha_breaks_witness :
  fst (@VerifyReCaptcha (mem_web None) "secret-key" "token" "login" "10.0.0.1")
  = Fatal "error occurred during making recaptcha request".
Proof.
  apply (@VerifyReCaptcha_breaks (mem_web None) "secret-key" "token" "login" "10.0.0.1");
    [discriminate | reflexivity].
Defined.

Example active_contracts :
  @GetActiveAdresses (mem_services None) (mem_chain ["0xa"; "0xb"; "0xc"] ["0xb"])
    0 true (db (foo_world true))
  = ["0xb"].
Proof. vm_compute. reflexivity. Qed.

Example active_repeats :
  @GetActiveAdresses (mem_services None) (mem_chain ["0xb"; "0xa"; "0xb"] ["0xb"])
    0 true (db (foo_world true))
  = ["0xb"; "0xb"].
Proof. vm_compute. reflexivity. Qed.

Example active_accounts :
  @GetActiveAdresses (mem_services None) (mem_chain ["0xa"; "0xb"; "0xc"] ["0xb"])
    0 false (db (foo_world true))
  = ["0xa"; "0xc"].
Proof. vm_compute. reflexivity. Qed.

Example recaptcha_low_score :
  fst (@VerifyReCaptcha (mem_web (Some (Some (mkReCaptchaResponse true true))))
         "secret-key" "token" "login" "")
  = Finished (Some (errors_New "not handling bot request")).
Proof. vm_compute. reflexivity. Qed.
